(** * Gradient-field generation: a shallow embedding of
    [create_gradient_image.py] and [create_gradient_on_image.py]

    Both Python modules build normalised coordinate fields with NumPy,
    derive linear and radial gradients from them, flip them with a
    direction tag and stack three of them into an RGB image.  The two
    modules share their function names but differ in validation, in the
    guard around the radial normalisation, in clamping and in the way a
    failure is surfaced; each is embedded in a module of its own
    ([GradientImage] and [GradientOnImage]) over one model of Python
    values, exceptions, standard output and the NumPy calls they use.

    Arithmetic: a NumPy [float64] is idealised as an extended real number
    (a real, plus or minus infinity, or NaN).  The special values follow
    IEEE 754 (so [0/0] is NaN and raises nothing, as under NumPy's default
    error state); rounding, overflow and the sign of zero are not
    modelled there.  Statements over this model are statements in exact
    arithmetic; where one is made about centres or elements of any size it
    carries the range in which binary64 neither overflows nor loses the
    property to rounding.

    Module [Binary64] embeds the functions whose behaviour depends on
    rounding and overflow a second time, over the kernel's binary64
    floats, so that the program can be run at the inputs where it leaves
    exact arithmetic. *)

From Stdlib Require Import ZArith List String Bool Arith Lia.
From Stdlib Require Import Reals Lra.
From Stdlib Require Import Floats.
From Stdlib Require Import DecimalString.
Import ListNotations.

Local Open Scope string_scope.
Local Open Scope list_scope.
Local Open Scope nat_scope.

(** ** Scalars *)

Inductive float64 : Type :=
| Fin (x : R)
| PInf
| NInf
| NaN.

Module F64.

Local Open Scope R_scope.

(** A Python int used where a float is needed: the conversion fails for
    an int that rounds beyond the largest binary64 number. *)
Definition of_Z (z : Z) : option float64 :=
  if (Z.abs z <? 2 ^ 1024 - 2 ^ 970)%Z then Some (Fin (IZR z)) else None.

Definition neg (a : float64) : float64 :=
  match a with
  | Fin x => Fin (- x)
  | PInf => NInf
  | NInf => PInf
  | NaN => NaN
  end.

Definition add (a b : float64) : float64 :=
  match a, b with
  | NaN, _ | _, NaN => NaN
  | Fin x, Fin y => Fin (x + y)
  | PInf, NInf | NInf, PInf => NaN
  | PInf, _ | _, PInf => PInf
  | NInf, _ | _, NInf => NInf
  end.

Definition sub (a b : float64) : float64 := add a (neg b).

(** [v ** 2] on a float array. *)
Definition square (a : float64) : float64 :=
  match a with
  | Fin x => Fin (x * x)
  | PInf | NInf => PInf
  | NaN => NaN
  end.

Definition sqrt (a : float64) : float64 :=
  match a with
  | Fin x => if Rlt_dec x 0 then NaN else Fin (R_sqrt.sqrt x)
  | PInf => PInf
  | NInf | NaN => NaN
  end.

(** True division; a zero divisor gives an infinity or NaN, never an
    exception. *)
Definition div (a b : float64) : float64 :=
  match a, b with
  | NaN, _ | _, NaN => NaN
  | Fin x, Fin y =>
      if Req_dec_T y 0 then
        if Req_dec_T x 0 then NaN
        else if Rlt_dec 0 x then PInf else NInf
      else Fin (x / y)
  | Fin _, (PInf | NInf) => Fin 0
  | (PInf | NInf), (PInf | NInf) => NaN
  | PInf, Fin y => if Rlt_dec y 0 then NInf else PInf
  | NInf, Fin y => if Rlt_dec y 0 then PInf else NInf
  end.

(** [a > b]; any comparison with NaN is false. *)
Definition gtb (a b : float64) : bool :=
  match a, b with
  | NaN, _ | _, NaN => false
  | Fin x, Fin y => if Rlt_dec y x then true else false
  | PInf, PInf => false
  | PInf, _ => true
  | _, PInf => false
  | NInf, _ => false
  | Fin _, NInf => true
  end.

(** [a <= b]. *)
Definition leb (a b : float64) : bool :=
  match a, b with
  | NaN, _ | _, NaN => false
  | Fin x, Fin y => if Rle_dec x y then true else false
  | _, PInf => true
  | NInf, _ => true
  | PInf, _ => false
  | Fin _, NInf => false
  end.

(** [np.maximum] and [np.minimum]: NaN wins. *)
Definition maximum (a b : float64) : float64 :=
  match a, b with
  | NaN, _ | _, NaN => NaN
  | PInf, _ | _, PInf => PInf
  | NInf, v | v, NInf => v
  | Fin x, Fin y => Fin (Rmax x y)
  end.

Definition minimum (a b : float64) : float64 :=
  match a, b with
  | NaN, _ | _, NaN => NaN
  | NInf, _ | _, NInf => NInf
  | PInf, v | v, PInf => v
  | Fin x, Fin y => Fin (Rmin x y)
  end.

(** [np.clip(v, lo, hi)] is [minimum(maximum(v, lo), hi)]. *)
Definition clip (lo hi v : float64) : float64 :=
  minimum (maximum v lo) hi.

(** The element lies in the closed interval [[0,1]]. *)
Definition in_unit (v : float64) : Prop :=
  exists x, v = Fin x /\ 0 <= x <= 1.

End F64.

(** ** Arrays

    A two-dimensional [ndarray] is its shape and its elements in row-major
    order; the three-dimensional result of [np.stack] has one more axis. *)

Record ndarray : Type := mkArr {
  nrows : nat;
  ncols : nat;
  data : list float64
}.

Record ndarray3 : Type := mkArr3 {
  dim0 : nat;
  dim1 : nat;
  dim2 : nat;
  data3 : list float64
}.

Definition shape (a : ndarray) : nat * nat := (nrows a, ncols a).

Definition shape3 (a : ndarray3) : nat * nat * nat := (dim0 a, dim1 a, dim2 a).

Definition wf (a : ndarray) : Prop := List.length (data a) = nrows a * ncols a.

(** [a[r, c]] for in-range indices. *)
Definition get (a : ndarray) (r c : nat) : option float64 :=
  if (r <? nrows a) && (c <? ncols a)
  then nth_error (data a) (r * ncols a + c)
  else None.

(** [a[r, c, k]]. *)
Definition get3 (a : ndarray3) (r c k : nat) : option float64 :=
  if (r <? dim0 a) && (c <? dim1 a) && (k <? dim2 a)
  then nth_error (data3 a) ((r * dim1 a + c) * dim2 a + k)
  else None.

Definition amap (f : float64 -> float64) (a : ndarray) : ndarray :=
  mkArr (nrows a) (ncols a) (map f (data a)).

Definition amap3 (f : float64 -> float64) (a : ndarray3) : ndarray3 :=
  mkArr3 (dim0 a) (dim1 a) (dim2 a) (map f (data3 a)).

(** Elementwise binary operation on two arrays of one shape. *)
Fixpoint zip_with (f : float64 -> float64 -> float64) (l1 l2 : list float64)
  : list float64 :=
  match l1, l2 with
  | x :: t1, y :: t2 => f x y :: zip_with f t1 t2
  | _, _ => []
  end.

Definition amap2 (f : float64 -> float64 -> float64) (a b : ndarray) : ndarray :=
  mkArr (nrows a) (ncols a) (zip_with f (data a) (data b)).

(** ** Python values, exceptions and the effect of a call *)

Inductive Direction : Type := FORWARD | REVERSE.

Inductive pyval : Type :=
| PyInt (z : Z)
| PyFloat (x : float64)
| PyStr (s : string)
| PyNone
| PyArray (a : ndarray)
| PyDirection (d : Direction).

Definition type_name (v : pyval) : string :=
  match v with
  | PyInt _ => "int"
  | PyFloat _ => "float"
  | PyStr _ => "str"
  | PyNone => "NoneType"
  | PyArray _ => "numpy.ndarray"
  | PyDirection _ => "Direction"
  end.

(** [SystemExit] derives from [BaseException] only: [except Exception]
    does not catch it, and uncaught it ends the process with its code. *)
Inductive exn : Type :=
| TypeError (msg : string)
| ValueError (msg : string)
| RuntimeError (msg : string)
| OverflowError (msg : string)
| SystemExit (code : Z).

Definition is_Exception (e : exn) : bool :=
  match e with
  | SystemExit _ => false
  | _ => true
  end.

(** [str(e)] as interpolated by an f-string. *)
Definition str_exn (e : exn) : string :=
  match e with
  | TypeError m | ValueError m | RuntimeError m | OverflowError m => m
  | SystemExit c => NilZero.string_of_int (Z.to_int c)
  end.

Inductive outcome (A : Type) : Type :=
| Return (a : A)
| Raise (e : exn).

Arguments Return {A} a.
Arguments Raise {A} e.

(** A call yields the lines it printed to standard output and how it
    ended. *)
Definition Py (A : Type) : Type := list string * outcome A.

Definition ret {A} (a : A) : Py A := ([], Return a).

Definition raise {A} (e : exn) : Py A := ([], Raise e).

Definition bind {A B} (m : Py A) (k : A -> Py B) : Py B :=
  match m with
  | (out, Return a) => let (out', r) := k a in (out ++ out', r)
  | (out, Raise e) => (out, Raise e)
  end.

Definition print (s : string) : Py unit := ([s], Return tt).

Definition sys_exit {A} (code : Z) : Py A := raise (SystemExit code).

(** [try: m  except Exception as e: h e]. *)
Definition try_except {A} (m : Py A) (h : exn -> Py A) : Py A :=
  match m with
  | (out, Raise e) =>
      if is_Exception e
      then let (out', r) := h e in (out ++ out', r)
      else (out, Raise e)
  | _ => m
  end.

Declare Scope py_scope.
Delimit Scope py_scope with py.
Notation "x <- m ;; k" := (bind m (fun x => k))
  (at level 61, m at next level, right associativity) : py_scope.
Notation "' pat <- m ;; k" := (bind m (fun x => match x with pat => k end))
  (at level 61, pat pattern, m at next level, right associativity) : py_scope.
Notation "m ;; k" := (bind m (fun _ => k))
  (at level 61, right associativity) : py_scope.
Local Open Scope py_scope.

Definition printed {A} (m : Py A) : list string := fst m.

Definition result {A} (m : Py A) : outcome A := snd m.


(** The call raised an ordinary exception to its caller and printed
    nothing. *)
Definition raises_to_caller {A} (m : Py A) : Prop :=
  printed m = [] /\ exists e, result m = Raise e /\ is_Exception e = true.

(** ** The NumPy calls the two modules use

    Modelled from NumPy's documented behaviour (version 1.18 or later,
    where [linspace] takes its [num] through [operator.index]). *)

Module Np.

Definition string_of_Z (z : Z) : string := NilZero.string_of_int (Z.to_int z).

(** The body of [np.linspace(start, stop, n)] with [endpoint=True]:
    [arange(0, n) * step + start], the last sample set to [stop]. *)
Definition linspace_vals (start stop : R) (n : nat) : list float64 :=
  let div := n - 1 in
  let delta := (stop - start)%R in
  let y := map INR (seq 0 n) in
  let y := if 0 <? div
           then map (fun v => (v * (delta / INR div))%R) y
           else map (fun v => (v * delta)%R) y in
  let y := map (fun v => (v + start)%R) y in
  map Fin (if 1 <? n then removelast y ++ [stop] else y).

Definition linspace (start stop : R) (num : pyval) : Py (list float64) :=
  match num with
  | PyInt n =>
      if (n <? 0)%Z
      then raise (ValueError ("Number of samples, " ++ string_of_Z n
                              ++ ", must be non-negative.")%string)
      else ret (linspace_vals start stop (Z.to_nat n))
  | v => raise (TypeError ("'" ++ type_name v
                           ++ "' object cannot be interpreted as an integer")%string)
  end.

(** [np.meshgrid(x, y)]: both results have shape [(len y, len x)]. *)
Definition meshgrid (x y : list float64) : ndarray * ndarray :=
  (mkArr (List.length y) (List.length x) (List.concat (repeat x (List.length y))),
   mkArr (List.length y) (List.length x)
         (flat_map (fun v => repeat v (List.length x)) y)).

(** [a - v] for a Python number [v]: under NumPy's promotion of
    Python scalars the int takes the array's float type, and the
    conversion of an int beyond the float range raises. *)
Definition sub_scalar (a : ndarray) (v : pyval) : Py ndarray :=
  match v with
  | PyInt z =>
      match F64.of_Z z with
      | Some c => ret (amap (fun e => F64.sub e c) a)
      | None => raise (OverflowError "int too large to convert to float")
      end
  | PyFloat x => ret (amap (fun e => F64.sub e x) a)
  | _ => raise (TypeError ("unsupported operand type(s) for -: 'numpy.ndarray' and '"
                           ++ type_name v ++ "'")%string)
  end.

(** [1 - a]. *)
Definition rsub_one (a : ndarray) : ndarray :=
  amap (fun e => F64.sub (Fin 1) e) a.

Definition square (a : ndarray) : ndarray := amap F64.square a.

Definition add (a b : ndarray) : ndarray := amap2 F64.add a b.

Definition sqrt (a : ndarray) : ndarray := amap F64.sqrt a.

Definition div_scalar (a : ndarray) (m : float64) : ndarray :=
  amap (fun e => F64.div e m) a.

(** [np.max(a)]: an empty array has no maximum. *)
Definition max (a : ndarray) : Py float64 :=
  match data a with
  | [] => raise (ValueError
            "zero-size array to reduction operation maximum which has no identity")
  | v :: t => ret (fold_left F64.maximum t v)
  end.

Fixpoint interleave3 (l0 l1 l2 : list float64) : list float64 :=
  match l0, l1, l2 with
  | a :: t0, b :: t1, c :: t2 => a :: b :: c :: interleave3 t0 t1 t2
  | _, _, _ => []
  end.

Definition same_shape (a b : ndarray) : bool :=
  (nrows a =? nrows b) && (ncols a =? ncols b).

(** [np.stack([a, b, c], axis=-1)] of two-dimensional arrays; for these
    [axis=2] names the same trailing axis. *)
Definition stack_last (a b c : ndarray) : Py ndarray3 :=
  if same_shape a b && same_shape a c
  then ret (mkArr3 (nrows a) (ncols a) 3 (interleave3 (data a) (data b) (data c)))
  else raise (ValueError "all input arrays must have the same shape").

Definition clip (img : ndarray3) (lo hi : float64) : ndarray3 :=
  amap3 (F64.clip lo hi) img.

(** [img[:, :, k]]. *)
Definition channel (img : ndarray3) (k : nat) : ndarray :=
  mkArr (dim0 img) (dim1 img)
        (map (fun i => nth (i * dim2 img + k) (data3 img) NaN)
             (seq 0 (dim0 img * dim1 img))).

End Np.

(** ** create_gradient_image.py *)

Module GradientImage.

(** [isinstance(v, (int, float))]. *)
Definition is_numeric (v : pyval) : bool :=
  match v with
  | PyInt _ | PyFloat _ => true
  | _ => false
  end.

(** [v <= 0] for a number. *)
Definition le_zero (v : pyval) : bool :=
  match v with
  | PyInt z => (z <=? 0)%Z
  | PyFloat x => F64.leb x (Fin 0)
  | _ => false
  end.

Definition validate_width_and_height (width height : pyval) : Py unit :=
  if negb (is_numeric width)
  then raise (TypeError "Expected 'width' to be numeric")
  else if negb (is_numeric height)
  then raise (TypeError "Expected 'height' to be numeric")
  else if le_zero width || le_zero height
  then raise (ValueError "Width and height must be positive")
  else ret tt.

Definition validate_center_coordinates (center_x center_y : pyval) : Py unit :=
  if negb (is_numeric center_x)
  then raise (TypeError "Expected 'center_x' to be numeric")
  else if negb (is_numeric center_y)
  then raise (TypeError "Expected 'center_y' to be numeric")
  else ret tt.

Definition validate_direction (direction : pyval) : Py unit :=
  match direction with
  | PyDirection _ => ret tt
  | _ => raise (TypeError "Expected 'direction' to be Direction enum")
  end.

Definition validate_gradient_array (gradient : pyval) : Py unit :=
  match gradient with
  | PyArray _ => ret tt
  | _ => raise (TypeError "Expected 'gradient' to be numpy array")
  end.

Definition create_coordinate_grids (width height : pyval)
  : Py (ndarray * ndarray) :=
  validate_width_and_height width height ;;
  x <- Np.linspace 0 1 width ;;
  y <- Np.linspace 0 1 height ;;
  ret (Np.meshgrid x y).

Definition create_black_to_white_gradient (width height : pyval) : Py ndarray :=
  validate_width_and_height width height ;;
  '(X, _) <- create_coordinate_grids width height ;;
  ret X.

Definition create_linear_gradients (width height : pyval)
  : Py (ndarray * ndarray) :=
  validate_width_and_height width height ;;
  '(X, Y) <- create_coordinate_grids width height ;;
  ret (X, Y).

Definition create_radial_gradient (width height center_x center_y : pyval)
  : Py ndarray :=
  validate_width_and_height width height ;;
  validate_center_coordinates center_x center_y ;;
  try_except
    ('(X, Y) <- create_coordinate_grids width height ;;
     dx <- Np.sub_scalar X center_x ;;
     dy <- Np.sub_scalar Y center_y ;;
     let radial := Np.sqrt (Np.add (Np.square dx) (Np.square dy)) in
     m <- Np.max radial ;;
     if F64.gtb m (Fin 0)
     then m' <- Np.max radial ;; ret (Np.div_scalar radial m')
     else ret radial)
    (fun e => raise (RuntimeError
                       ("Error creating radial gradient: " ++ str_exn e)%string)).

Definition apply_direction_to_gradient (gradient direction : pyval)
  : Py ndarray :=
  validate_gradient_array gradient ;;
  validate_direction direction ;;
  match gradient, direction with
  | PyArray g, PyDirection REVERSE => ret (Np.rsub_one g)
  | PyArray g, _ => ret g
  | _, _ => raise (TypeError "Expected 'gradient' to be numpy array")
  end.

Definition create_rgb_combination (red green blue : pyval) : Py ndarray3 :=
  validate_gradient_array red ;;
  validate_gradient_array green ;;
  validate_gradient_array blue ;;
  match red, green, blue with
  | PyArray r, PyArray g, PyArray b =>
      try_except
        (rgb_image <- Np.stack_last r g b ;;
         ret (Np.clip rgb_image (Fin 0) (Fin 1)))
        (fun e => raise (RuntimeError
                           ("Error combining RGB channels: " ++ str_exn e)%string))
  | _, _, _ => raise (TypeError "Expected 'gradient' to be numpy array")
  end.

End GradientImage.

(** ** create_gradient_on_image.py *)

Module GradientOnImage.

Definition is_int (v : pyval) : bool :=
  match v with PyInt _ => true | _ => false end.

Definition is_float (v : pyval) : bool :=
  match v with PyFloat _ => true | _ => false end.

(** The handler every [try] of this module ends with:
    [except Exception as e: print(f"Exception: {e}"); sys.exit(1)]. *)
Definition exit_on_exception {A} (m : Py A) : Py A :=
  try_except m
    (fun e => print ("Exception: " ++ str_exn e)%string ;; sys_exit 1).

(** The two [isinstance(_, int)] guards each function opens with. *)
Definition check_width_height {A} (width height : pyval) (k : Py A) : Py A :=
  if negb (is_int width)
  then raise (TypeError "Expected 'width' to be an integer")
  else if negb (is_int height)
  then raise (TypeError "Expected 'height' to be an integer")
  else k.

Definition create_coordinate_grids (width height : pyval)
  : Py (ndarray * ndarray) :=
  check_width_height width height
    (exit_on_exception
       (x <- Np.linspace 0 1 width ;;
        y <- Np.linspace 0 1 height ;;
        ret (Np.meshgrid x y))).

Definition create_black_to_white_gradient (width height : pyval) : Py ndarray :=
  check_width_height width height
    (exit_on_exception
       ('(X, _) <- create_coordinate_grids width height ;;
        ret X)).

Definition create_linear_gradients (width height : pyval)
  : Py (ndarray * ndarray) :=
  check_width_height width height
    (exit_on_exception
       ('(X, Y) <- create_coordinate_grids width height ;;
        let linear_x := X in
        let linear_y := Y in
        ret (linear_x, linear_y))).

Definition create_radial_gradient (width height center_x center_y : pyval)
  : Py ndarray :=
  check_width_height width height
    (if negb (is_float center_x)
     then raise (TypeError "Expected 'center_x' to be an float")
     else if negb (is_float center_y)
     then raise (TypeError "Expected 'center_y' to be an float")
     else
       exit_on_exception
         ('(X, Y) <- create_coordinate_grids width height ;;
          dx <- Np.sub_scalar X center_x ;;
          dy <- Np.sub_scalar Y center_y ;;
          let radial := Np.sqrt (Np.add (Np.square dx) (Np.square dy)) in
          m <- Np.max radial ;;
          ret (Np.div_scalar radial m))).

Definition apply_direction_to_gradient (gradient direction : pyval)
  : Py ndarray :=
  match gradient with
  | PyArray g =>
      match direction with
      | PyDirection d =>
          exit_on_exception
            (match d with
             | REVERSE => ret (Np.rsub_one g)
             | FORWARD => ret g
             end)
      | _ => raise (TypeError
                      "Expected 'direction' to be an Direction (declared enum)")
      end
  | _ => raise (TypeError "Expected 'gradient' to be an ndarray")
  end.

Definition create_directional_gradients
    (direction_x direction_y width height : pyval) : Py (ndarray * ndarray) :=
  check_width_height width height
    (match direction_x, direction_y with
     | PyDirection _, PyDirection _ =>
         exit_on_exception
           ('(linear_x, linear_y) <- create_linear_gradients width height ;;
            linear_x <- apply_direction_to_gradient (PyArray linear_x) direction_x ;;
            linear_y <- apply_direction_to_gradient (PyArray linear_y) direction_y ;;
            ret (linear_x, linear_y))
     | PyDirection _, _ =>
         raise (TypeError "Expected 'direction_x' to be an Direction (declared enum)")
     | _, _ =>
         raise (TypeError "Expected 'direction_x' to be an Direction (declared enum)")
     end).

Definition create_rgb_combination (red_grad green_grad blue_grad : pyval)
  : Py ndarray3 :=
  match red_grad with
  | PyArray r =>
      match green_grad with
      | PyArray g =>
          match blue_grad with
          | PyArray b => exit_on_exception (Np.stack_last r g b)
          | _ => raise (TypeError "Expected 'blue_grad' to be an ndarray")
          end
      | _ => raise (TypeError "Expected 'green_grad' to be an ndarray")
      end
  | _ => raise (TypeError "Expected 'red_grad' to be an ndarray")
  end.

End GradientOnImage.

(** ** The same functions in binary64

    Every number here is one of the kernel's binary64 floats, every
    operation rounds to nearest-even and overflows to an infinity as the
    hardware does, so a call can be evaluated.  Only the functions whose
    results depend on that are repeated: the grids, the radial gradient
    and the direction, of both modules. *)

Module Binary64.

Record ndarray : Type := mkArr {
  nrows : nat;
  ncols : nat;
  data : list float
}.

Inductive pyval : Type :=
| PyInt (z : Z)
| PyFloat (x : float)
| PyStr (s : string)
| PyNone
| PyArray (a : ndarray)
| PyDirection (d : Direction).

Definition type_name (v : pyval) : string :=
  match v with
  | PyInt _ => "int"
  | PyFloat _ => "float"
  | PyStr _ => "str"
  | PyNone => "NoneType"
  | PyArray _ => "numpy.ndarray"
  | PyDirection _ => "Direction"
  end.

Definition amap (f : float -> float) (a : ndarray) : ndarray :=
  mkArr (nrows a) (ncols a) (map f (data a)).

Fixpoint zip_with (f : float -> float -> float) (l1 l2 : list float) : list float :=
  match l1, l2 with
  | x :: t1, y :: t2 => f x y :: zip_with f t1 t2
  | _, _ => []
  end.

Definition amap2 (f : float -> float -> float) (a b : ndarray) : ndarray :=
  mkArr (nrows a) (ncols a) (zip_with f (data a) (data b)).

Definition string_of_Z (z : Z) : string := Np.string_of_Z z.

Module Np.

(** The float nearest to an int (ties to even), or nothing when that is
    beyond the largest finite float. *)
Definition of_int (z : Z) : option float :=
  match binary_normalize prec emax z 0 false with
  | S754_infinity _ => None
  | sf => Some (SF2Prim sf)
  end.

(** [arange(0, n)] as floats; the indices of a grid are exact. *)
Definition of_index (i : nat) : float :=
  SF2Prim (binary_normalize prec emax (Z.of_nat i) 0 false).

(** The body of [np.linspace(start, stop, n)] with [endpoint=True]. *)
Definition linspace_vals (start stop : float) (n : nat) : list float :=
  let div := n - 1 in
  let delta := PrimFloat.sub stop start in
  let y := map of_index (seq 0 n) in
  let y := if 0 <? div
           then let step := PrimFloat.div delta (of_index div) in
                if PrimFloat.eqb step 0%float
                then map (fun v => PrimFloat.mul (PrimFloat.div v (of_index div)) delta) y
                else map (fun v => PrimFloat.mul v step) y
           else map (fun v => PrimFloat.mul v delta) y in
  let y := map (fun v => PrimFloat.add v start) y in
  if 1 <? n then removelast y ++ [stop] else y.

Definition linspace (start stop : float) (num : pyval) : Py (list float) :=
  match num with
  | PyInt n =>
      if (n <? 0)%Z
      then raise (ValueError ("Number of samples, " ++ string_of_Z n
                              ++ ", must be non-negative.")%string)
      else ret (linspace_vals start stop (Z.to_nat n))
  | v => raise (TypeError ("'" ++ type_name v
                           ++ "' object cannot be interpreted as an integer")%string)
  end.

Definition meshgrid (x y : list float) : ndarray * ndarray :=
  (mkArr (List.length y) (List.length x) (List.concat (repeat x (List.length y))),
   mkArr (List.length y) (List.length x)
         (flat_map (fun v => repeat v (List.length x)) y)).

Definition sub_scalar (a : ndarray) (v : pyval) : Py ndarray :=
  match v with
  | PyInt z =>
      match of_int z with
      | Some c => ret (amap (fun e => PrimFloat.sub e c) a)
      | None => raise (OverflowError "int too large to convert to float")
      end
  | PyFloat x => ret (amap (fun e => PrimFloat.sub e x) a)
  | _ => raise (TypeError ("unsupported operand type(s) for -: 'numpy.ndarray' and '"
                           ++ type_name v ++ "'")%string)
  end.

Definition rsub_one (a : ndarray) : ndarray :=
  amap (fun e => PrimFloat.sub 1%float e) a.

Definition square (a : ndarray) : ndarray := amap (fun e => PrimFloat.mul e e) a.

Definition add (a b : ndarray) : ndarray := amap2 PrimFloat.add a b.

Definition sqrt (a : ndarray) : ndarray := amap PrimFloat.sqrt a.

Definition div_scalar (a : ndarray) (m : float) : ndarray :=
  amap (fun e => PrimFloat.div e m) a.

(** [np.maximum]: NaN wins. *)
Definition maximum (a b : float) : float :=
  if PrimFloat.is_nan a then a
  else if PrimFloat.is_nan b then b
  else if PrimFloat.ltb a b then b else a.

Definition max (a : ndarray) : Py float :=
  match data a with
  | [] => raise (ValueError
            "zero-size array to reduction operation maximum which has no identity")
  | v :: t => ret (fold_left maximum t v)
  end.

End Np.

Module GradientImage.

Definition is_numeric (v : pyval) : bool :=
  match v with
  | PyInt _ | PyFloat _ => true
  | _ => false
  end.

Definition le_zero (v : pyval) : bool :=
  match v with
  | PyInt z => (z <=? 0)%Z
  | PyFloat x => PrimFloat.leb x 0%float
  | _ => false
  end.

Definition validate_width_and_height (width height : pyval) : Py unit :=
  if negb (is_numeric width)
  then raise (TypeError "Expected 'width' to be numeric")
  else if negb (is_numeric height)
  then raise (TypeError "Expected 'height' to be numeric")
  else if le_zero width || le_zero height
  then raise (ValueError "Width and height must be positive")
  else ret tt.

Definition validate_center_coordinates (center_x center_y : pyval) : Py unit :=
  if negb (is_numeric center_x)
  then raise (TypeError "Expected 'center_x' to be numeric")
  else if negb (is_numeric center_y)
  then raise (TypeError "Expected 'center_y' to be numeric")
  else ret tt.

Definition validate_direction (direction : pyval) : Py unit :=
  match direction with
  | PyDirection _ => ret tt
  | _ => raise (TypeError "Expected 'direction' to be Direction enum")
  end.

Definition validate_gradient_array (gradient : pyval) : Py unit :=
  match gradient with
  | PyArray _ => ret tt
  | _ => raise (TypeError "Expected 'gradient' to be numpy array")
  end.

Definition create_coordinate_grids (width height : pyval)
  : Py (ndarray * ndarray) :=
  validate_width_and_height width height ;;
  x <- Np.linspace 0%float 1%float width ;;
  y <- Np.linspace 0%float 1%float height ;;
  ret (Np.meshgrid x y).

Definition create_radial_gradient (width height center_x center_y : pyval)
  : Py ndarray :=
  validate_width_and_height width height ;;
  validate_center_coordinates center_x center_y ;;
  try_except
    ('(X, Y) <- create_coordinate_grids width height ;;
     dx <- Np.sub_scalar X center_x ;;
     dy <- Np.sub_scalar Y center_y ;;
     let radial := Np.sqrt (Np.add (Np.square dx) (Np.square dy)) in
     m <- Np.max radial ;;
     if PrimFloat.ltb 0%float m
     then m' <- Np.max radial ;; ret (Np.div_scalar radial m')
     else ret radial)
    (fun e => raise (RuntimeError
                       ("Error creating radial gradient: " ++ str_exn e)%string)).

Definition apply_direction_to_gradient (gradient direction : pyval)
  : Py ndarray :=
  validate_gradient_array gradient ;;
  validate_direction direction ;;
  match gradient, direction with
  | PyArray g, PyDirection REVERSE => ret (Np.rsub_one g)
  | PyArray g, _ => ret g
  | _, _ => raise (TypeError "Expected 'gradient' to be numpy array")
  end.

End GradientImage.

Module GradientOnImage.

Definition is_int (v : pyval) : bool :=
  match v with PyInt _ => true | _ => false end.

Definition is_float (v : pyval) : bool :=
  match v with PyFloat _ => true | _ => false end.

Definition exit_on_exception {A} (m : Py A) : Py A :=
  try_except m
    (fun e => print ("Exception: " ++ str_exn e)%string ;; sys_exit 1).

Definition check_width_height {A} (width height : pyval) (k : Py A) : Py A :=
  if negb (is_int width)
  then raise (TypeError "Expected 'width' to be an integer")
  else if negb (is_int height)
  then raise (TypeError "Expected 'height' to be an integer")
  else k.

Definition create_coordinate_grids (width height : pyval)
  : Py (ndarray * ndarray) :=
  check_width_height width height
    (exit_on_exception
       (x <- Np.linspace 0%float 1%float width ;;
        y <- Np.linspace 0%float 1%float height ;;
        ret (Np.meshgrid x y))).

Definition create_radial_gradient (width height center_x center_y : pyval)
  : Py ndarray :=
  check_width_height width height
    (if negb (is_float center_x)
     then raise (TypeError "Expected 'center_x' to be an float")
     else if negb (is_float center_y)
     then raise (TypeError "Expected 'center_y' to be an float")
     else
       exit_on_exception
         ('(X, Y) <- create_coordinate_grids width height ;;
          dx <- Np.sub_scalar X center_x ;;
          dy <- Np.sub_scalar Y center_y ;;
          let radial := Np.sqrt (Np.add (Np.square dx) (Np.square dy)) in
          m <- Np.max radial ;;
          ret (Np.div_scalar radial m))).

Definition apply_direction_to_gradient (gradient direction : pyval)
  : Py ndarray :=
  match gradient with
  | PyArray g =>
      match direction with
      | PyDirection d =>
          exit_on_exception
            (match d with
             | REVERSE => ret (Np.rsub_one g)
             | FORWARD => ret g
             end)
      | _ => raise (TypeError
                      "Expected 'direction' to be an Direction (declared enum)")
      end
  | _ => raise (TypeError "Expected 'gradient' to be an ndarray")
  end.

End GradientOnImage.

End Binary64.

(** ** Vocabulary of the statements *)




(** The coordinate of sample [i] out of [n] on the unit interval. *)
Definition unit_coord (i n : nat) : R :=
  if n =? 1 then 0%R else (INR i / INR (n - 1))%R.

(** The pair of grids both modules build for [w] columns and [h] rows. *)
Definition grids (w h : nat) : ndarray * ndarray :=
  Np.meshgrid (Np.linspace_vals 0 1 w) (Np.linspace_vals 0 1 h).


(** Nothing printed, and whatever is raised is an ordinary exception. *)
Definition quiet {A} (m : Py A) : Prop :=
  printed m = [] /\ forall e, result m = Raise e -> is_Exception e = true.

(** One diagnostic line on standard output, then [sys.exit(1)]. *)
Definition exits_with_diagnostic {A} (m : Py A) : Prop :=
  exists msg, m = (["Exception: " ++ msg]%string, Raise (SystemExit 1)).

(** The three ways a call of create_gradient_on_image.py can end. *)
Definition returns_or_type_error_or_exit {A} (m : Py A) : Prop :=
  (exists a, m = ([], Return a)) \/
  (exists msg, m = ([], Raise (TypeError msg))) \/
  exits_with_diagnostic m.


(** What a [try] body of create_gradient_on_image.py may do: stay quiet,
    or carry the exit of a callee through. *)
Definition quiet_or_exit {A} (m : Py A) : Prop :=
  quiet m \/ exits_with_diagnostic m.

(** The test [np.stack] makes on its three inputs. *)
Definition shapes_agree (a b c : ndarray) : bool :=
  Np.same_shape a b && Np.same_shape a c.

(** The three fields stacked along a new trailing axis. *)
Definition stacked (a b c : ndarray) : ndarray3 :=
  mkArr3 (nrows a) (ncols a) 3 (Np.interleave3 (data a) (data b) (data c)).

(** The distance field both modules compute before normalising. *)
Definition radial_of (X Y : ndarray) (cx cy : float64) : ndarray :=
  Np.sqrt (Np.add (Np.square (amap (fun e => F64.sub e cx) X))
                  (Np.square (amap (fun e => F64.sub e cy) Y))).

(** The float a Python number stands for in [array - number]. *)
Definition center_float (v : pyval) : option float64 :=
  match v with
  | PyInt z => F64.of_Z z
  | PyFloat x => Some x
  | _ => None
  end.

(** The maximum [np.max] returns on a non-empty array. *)
Definition amax (a : ndarray) : float64 :=
  match data a with
  | [] => NaN
  | v :: t => fold_left F64.maximum t v
  end.

(** Euclidean distance of the point [(x, y)] from [(cx, cy)], written as
    the arrays compute it. *)
Definition dist (x y cx cy : R) : R :=
  R_sqrt.sqrt ((x + - cx) * (x + - cx) + (y + - cy) * (y + - cy)).

(** The element is a real number. *)
Definition finite (v : float64) : Prop := exists d, v = Fin d.

(** The element is a real number that is not negative. *)
Definition nonneg_fin (v : float64) : Prop := exists d, v = Fin d /\ (0 <= d)%R.

(** The field create_gradient_image.py returns: normalised under the
    guard [np.max(radial) > 0]. *)
Definition guarded_radial (w h : nat) (cx cy : float64) : ndarray :=
  let r := radial_of (fst (grids w h)) (snd (grids w h)) cx cy in
  if F64.gtb (amax r) (Fin 0) then Np.div_scalar r (amax r) else r.

(** The field create_gradient_on_image.py returns: always divided. *)
Definition unguarded_radial (w h : nat) (cx cy : float64) : ndarray :=
  let r := radial_of (fst (grids w h)) (snd (grids w h)) cx cy in
  Np.div_scalar r (amax r).

(** How create_gradient_on_image.py ends when [np.linspace] is given the
    negative sample count [n]: NumPy's message printed, then exit 1. *)
Definition negative_samples_exit {A} (n : Z) : Py A :=
  ([("Exception: Number of samples, " ++ Np.string_of_Z n
     ++ ", must be non-negative.")%string],
   Raise (SystemExit 1)).

(** A well-formed field of shape [(h, w)] with every element in the unit
    interval. *)
Definition unit_field (h w : nat) (f : ndarray) : Prop :=
  shape f = (h, w) /\ wf f /\ Forall F64.in_unit (data f).

(** * Properties *)

(** ** The monad *)

Lemma bind_ret_l {A B} (a : A) (k : A -> Py B) : bind (ret a) k = k a.
Proof. unfold bind, ret. destruct (k a); reflexivity. Qed.

(** ** [linspace] and [meshgrid] *)

Lemma linspace_vals_length (s e : R) (n : nat) :
  List.length (Np.linspace_vals s e n) = n.
Proof.
  unfold Np.linspace_vals.
  assert (L : forall f g : R -> R,
             List.length (map (fun v => (v + s)%R)
               (if 0 <? n - 1 then map f (map INR (seq 0 n))
                else map g (map INR (seq 0 n)))) = n).
  { intros f g. destruct (0 <? n - 1); now rewrite !length_map, length_seq. }
  rewrite length_map.
  destruct (1 <? n) eqn:En; [| apply L].
  apply Nat.ltb_lt in En.
  rewrite length_app, removelast_firstn_len, length_firstn, L. simpl. lia.
Qed.

Lemma linspace_vals_nth (n i : nat) :
  i < n -> nth_error (Np.linspace_vals 0 1 n) i = Some (Fin (unit_coord i n)).
Proof.
  intros Hi. unfold Np.linspace_vals, unit_coord.
  rewrite nth_error_map.
  destruct (Nat.eq_dec n 1) as [->|Hn1].
  - assert (i = 0) by lia. subst i. simpl. do 2 f_equal. lra.
  - assert (Hn : 2 <= n) by lia.
    replace (n =? 1) with false by (symmetry; now apply Nat.eqb_neq).
    replace (1 <? n) with true by (symmetry; apply Nat.ltb_lt; lia).
    replace (0 <? n - 1) with true by (symmetry; apply Nat.ltb_lt; lia).
    assert (Hd : INR (n - 1) <> 0%R) by (apply not_0_INR; lia).
    rewrite !map_map.
    set (g := fun x : nat => (INR x * ((1 - 0) / INR (n - 1)) + 0)%R).
    assert (Lg : List.length (map g (seq 0 n)) = n)
      by now rewrite length_map, length_seq.
    destruct (Nat.eq_dec i (n - 1)) as [->|Hlast].
    + rewrite nth_error_app2
        by (rewrite removelast_firstn_len, length_firstn, Lg; lia).
      rewrite removelast_firstn_len, length_firstn, Lg.
      replace (n - 1 - Nat.min (Nat.pred n) n) with 0 by lia.
      simpl. do 2 f_equal. now field.
    + rewrite nth_error_app1
        by (rewrite removelast_firstn_len, length_firstn, Lg; lia).
      rewrite removelast_firstn_len, Lg, nth_error_firstn.
      replace (i <? Nat.pred n) with true by (symmetry; apply Nat.ltb_lt; lia).
      rewrite nth_error_map, nth_error_seq.
      replace (i <? n) with true by (symmetry; now apply Nat.ltb_lt).
      simpl. unfold g. do 2 f_equal. now field.
Qed.

Lemma nth_error_concat_repeat {A} (x : list A) (h r c : nat) :
  r < h -> c < List.length x ->
  nth_error (List.concat (repeat x h)) (r * List.length x + c) = nth_error x c.
Proof.
  revert r. induction h as [|h IH]; intros r Hr Hc; [lia|].
  simpl. destruct r as [|r].
  - simpl. now apply nth_error_app1.
  - rewrite nth_error_app2 by (simpl; lia).
    replace (S r * List.length x + c - List.length x)
      with (r * List.length x + c) by (simpl; lia).
    apply IH; lia.
Qed.

Lemma nth_error_flat_map_repeat {A} (y : list A) (w r c : nat) :
  c < w ->
  nth_error (flat_map (fun v => repeat v w) y) (r * w + c) = nth_error y r.
Proof.
  intros Hc. revert r. induction y as [|v y IH]; intros r.
  - simpl. now rewrite !nth_error_nil.
  - simpl. destruct r as [|r].
    + simpl. rewrite nth_error_app1 by (rewrite repeat_length; lia).
      rewrite nth_error_repeat by lia. reflexivity.
    + rewrite nth_error_app2 by (rewrite repeat_length; simpl; lia).
      rewrite repeat_length.
      replace (S r * w + c - w) with (r * w + c) by (simpl; lia).
      apply IH.
Qed.

Lemma meshgrid_get_X (x y : list float64) (r c : nat) :
  r < List.length y -> c < List.length x ->
  get (fst (Np.meshgrid x y)) r c = nth_error x c.
Proof.
  intros Hr Hc. unfold get, Np.meshgrid. cbn [fst nrows ncols data].
  replace (r <? List.length y) with true by (symmetry; now apply Nat.ltb_lt).
  replace (c <? List.length x) with true by (symmetry; now apply Nat.ltb_lt).
  cbn [andb]. now apply nth_error_concat_repeat.
Qed.

Lemma meshgrid_get_Y (x y : list float64) (r c : nat) :
  r < List.length y -> c < List.length x ->
  get (snd (Np.meshgrid x y)) r c = nth_error y r.
Proof.
  intros Hr Hc. unfold get, Np.meshgrid. cbn [snd nrows ncols data].
  replace (r <? List.length y) with true by (symmetry; now apply Nat.ltb_lt).
  replace (c <? List.length x) with true by (symmetry; now apply Nat.ltb_lt).
  cbn [andb]. now apply nth_error_flat_map_repeat.
Qed.

(** ** Coordinate grids *)

Lemma linspace_nonneg (n : Z) :
  (0 <= n)%Z -> Np.linspace 0 1 (PyInt n) = ret (Np.linspace_vals 0 1 (Z.to_nat n)).
Proof.
  intros Hn. unfold Np.linspace.
  replace (n <? 0)%Z with false by (symmetry; apply Z.ltb_ge; lia). reflexivity.
Qed.

Lemma validate_width_and_height_pos (w h : Z) :
  (0 < w)%Z -> (0 < h)%Z ->
  GradientImage.validate_width_and_height (PyInt w) (PyInt h) = ret tt.
Proof.
  intros Hw Hh. unfold GradientImage.validate_width_and_height.
  cbn [GradientImage.is_numeric negb GradientImage.le_zero].
  replace (w <=? 0)%Z with false by (symmetry; apply Z.leb_gt; lia).
  replace (h <=? 0)%Z with false by (symmetry; apply Z.leb_gt; lia).
  reflexivity.
Qed.

Lemma GradientImage_grids (w h : Z) :
  (0 < w)%Z -> (0 < h)%Z ->
  GradientImage.create_coordinate_grids (PyInt w) (PyInt h)
  = ret (grids (Z.to_nat w) (Z.to_nat h)).
Proof.
  intros Hw Hh. unfold GradientImage.create_coordinate_grids.
  rewrite validate_width_and_height_pos by assumption.
  rewrite bind_ret_l, !linspace_nonneg by lia.
  now rewrite !bind_ret_l.
Qed.

Lemma GradientOnImage_grids (w h : Z) :
  (0 <= w)%Z -> (0 <= h)%Z ->
  GradientOnImage.create_coordinate_grids (PyInt w) (PyInt h)
  = ret (grids (Z.to_nat w) (Z.to_nat h)).
Proof.
  intros Hw Hh.
  unfold GradientOnImage.create_coordinate_grids,
    GradientOnImage.check_width_height, GradientOnImage.exit_on_exception.
  cbn [GradientOnImage.is_int negb].
  rewrite !linspace_nonneg by lia.
  now rewrite !bind_ret_l.
Qed.

Lemma grids_shape (w h : nat) :
  shape (fst (grids w h)) = (h, w) /\ shape (snd (grids w h)) = (h, w).
Proof.
  unfold grids, Np.meshgrid, shape. cbn [fst snd nrows ncols].
  now rewrite !linspace_vals_length.
Qed.

Lemma grids_wf (w h : nat) : wf (fst (grids w h)) /\ wf (snd (grids w h)).
Proof.
  unfold grids, Np.meshgrid, wf. cbn [fst snd nrows ncols data].
  rewrite !linspace_vals_length. split.
  - generalize (Np.linspace_vals 0 1 w) (linspace_vals_length 0 1 w).
    intros x Hx. subst w. induction h as [|h IH]; [reflexivity|].
    simpl. rewrite length_app, IH. reflexivity.
  - generalize (Np.linspace_vals 0 1 h) (linspace_vals_length 0 1 h).
    intros y Hy. subst h. induction y as [|v y IH]; [reflexivity|].
    simpl. rewrite length_app, repeat_length, IH. reflexivity.
Qed.

Lemma grids_get (w h r c : nat) :
  r < h -> c < w ->
  get (fst (grids w h)) r c = Some (Fin (unit_coord c w)) /\
  get (snd (grids w h)) r c = Some (Fin (unit_coord r h)).
Proof.
  intros Hr Hc. unfold grids. split.
  - rewrite meshgrid_get_X by now rewrite linspace_vals_length.
    now apply linspace_vals_nth.
  - rewrite meshgrid_get_Y by now rewrite linspace_vals_length.
    now apply linspace_vals_nth.
Qed.




(** ** Dimension validation *)

(** C10. Some positive non-integer real width (2.5, with height 10) passes
    [validate_width_and_height] of create_gradient_image.py, and
    [create_coordinate_grids] then fails inside [np.linspace] with a
    [TypeError] that is not one of the module's own validation errors. *)
Theorem positive_real_width_passes_validation_then_fails :
  exists x : R,
    (0 < x)%R /\ (forall z : Z, IZR z <> x) /\
    GradientImage.validate_width_and_height (PyFloat (Fin x)) (PyInt 10)
    = ([], Return tt) /\
    GradientImage.create_coordinate_grids (PyFloat (Fin x)) (PyInt 10)
    = ([], Raise (TypeError "'float' object cannot be interpreted as an integer")).
Proof.
  exists (5 / 2)%R.
  assert (V : GradientImage.validate_width_and_height (PyFloat (Fin (5 / 2))) (PyInt 10)
              = ([], Return tt)).
  { unfold GradientImage.validate_width_and_height.
    cbn [GradientImage.is_numeric negb GradientImage.le_zero F64.leb].
    destruct (Rle_dec (5 / 2) 0) as [H|_]; [lra|]. reflexivity. }
  split; [lra|]. split.
  - intros z Hz.
    assert (H : IZR (2 * z) = IZR 5) by (rewrite mult_IZR, Hz; lra).
    apply eq_IZR in H. lia.
  - split; [exact V|].
    unfold GradientImage.create_coordinate_grids. rewrite V. reflexivity.
Qed.

Lemma concat_repeat_nil {A} (n : nat) : List.concat (repeat (@nil A) n) = [].
Proof. induction n; simpl; auto. Qed.

Lemma flat_map_repeat_0 {A} (y : list A) : flat_map (fun v => repeat v 0) y = [].
Proof. induction y; simpl; auto. Qed.

Lemma grids_zero_width (h : nat) : grids 0 h = (mkArr h 0 [], mkArr h 0 []).
Proof.
  unfold grids, Np.meshgrid. rewrite linspace_vals_length.
  cbn [Np.linspace_vals seq map Nat.ltb Nat.leb Nat.sub List.length].
  now rewrite concat_repeat_nil, flat_map_repeat_0.
Qed.

(** X1. In create_gradient_image.py every grid or field entry point rejects a
    numeric width or height that is not positive with the [ValueError] of
    [validate_width_and_height]. *)
Lemma GradientImage_rejects_non_positive (width height cx cy : pyval) :
  GradientImage.is_numeric width = true ->
  GradientImage.is_numeric height = true ->
  GradientImage.le_zero width || GradientImage.le_zero height = true ->
  let e := ValueError "Width and height must be positive" in
  GradientImage.create_coordinate_grids width height = ([], Raise e) /\
  GradientImage.create_black_to_white_gradient width height = ([], Raise e) /\
  GradientImage.create_linear_gradients width height = ([], Raise e) /\
  GradientImage.create_radial_gradient width height cx cy = ([], Raise e).
Proof.
  intros Hw Hh Hz e.
  assert (V : GradientImage.validate_width_and_height width height = ([], Raise e)).
  { unfold GradientImage.validate_width_and_height. now rewrite Hw, Hh, Hz. }
  unfold GradientImage.create_coordinate_grids,
    GradientImage.create_black_to_white_gradient,
    GradientImage.create_linear_gradients,
    GradientImage.create_radial_gradient.
  rewrite V. repeat split; reflexivity.
Qed.

(** C6 (the code departs from the claim). In create_gradient_on_image.py
    [create_linear_gradients(0, 10)] raises nothing: it returns two empty
    fields of shape (10, 0). *)
Theorem GradientOnImage_linear_zero_width_returns_empty :
  GradientOnImage.create_linear_gradients (PyInt 0) (PyInt 10)
  = ([], Return (mkArr 10 0 [], mkArr 10 0 [])).
Proof.
  unfold GradientOnImage.create_linear_gradients,
    GradientOnImage.check_width_height, GradientOnImage.exit_on_exception.
  cbn [GradientOnImage.is_int negb].
  rewrite GradientOnImage_grids by lia.
  rewrite bind_ret_l.
  change (Z.to_nat 0) with 0.
  rewrite grids_zero_width. reflexivity.
Qed.

(** ** Direction *)








(** ** Channel composition *)

Lemma map_nth_seq {A} (l : list A) (d : A) :
  map (fun i => nth i l d) (seq 0 (List.length l)) = l.
Proof.
  induction l as [|a l IH]; [reflexivity|].
  cbn [List.length seq map nth]. f_equal.
  rewrite <- seq_shift, map_map. exact IH.
Qed.

Lemma interleave3_nth (l0 l1 l2 : list float64) (i : nat) (d : float64) :
  List.length l1 = List.length l0 -> List.length l2 = List.length l0 ->
  nth (i * 3 + 0) (Np.interleave3 l0 l1 l2) d = nth i l0 d /\
  nth (i * 3 + 1) (Np.interleave3 l0 l1 l2) d = nth i l1 d /\
  nth (i * 3 + 2) (Np.interleave3 l0 l1 l2) d = nth i l2 d.
Proof.
  revert l0 l1 l2.
  induction i as [|i IH]; intros [|a l0] [|b l1] [|c l2] H1 H2;
    try discriminate; cbn [Np.interleave3].
  - now cbn.
  - now cbn.
  - now cbn.
  - replace (S i * 3 + 0) with (S (S (S (i * 3 + 0)))) by lia.
    replace (S i * 3 + 1) with (S (S (S (i * 3 + 1)))) by lia.
    replace (S i * 3 + 2) with (S (S (S (i * 3 + 2)))) by lia.
    cbn [nth]. apply IH; simpl in *; lia.
Qed.

Lemma map_interleave3 (f : float64 -> float64) (l0 l1 l2 : list float64) :
  map f (Np.interleave3 l0 l1 l2) = Np.interleave3 (map f l0) (map f l1) (map f l2).
Proof.
  revert l1 l2. induction l0 as [|a l0 IH]; intros [|b l1] [|c l2];
    cbn [Np.interleave3 map]; try reflexivity.
  now rewrite IH.
Qed.

Lemma channel_interleave3 (h w : nat) (l0 l1 l2 : list float64) :
  List.length l0 = h * w -> List.length l1 = h * w -> List.length l2 = h * w ->
  Np.channel (mkArr3 h w 3 (Np.interleave3 l0 l1 l2)) 0 = mkArr h w l0 /\
  Np.channel (mkArr3 h w 3 (Np.interleave3 l0 l1 l2)) 1 = mkArr h w l1 /\
  Np.channel (mkArr3 h w 3 (Np.interleave3 l0 l1 l2)) 2 = mkArr h w l2.
Proof.
  intros H0 H1 H2. unfold Np.channel. cbn [dim0 dim1 dim2 data3].
  repeat split; f_equal.
  - rewrite <- H0, <- (map_nth_seq l0 NaN) at 1. rewrite map_nth_seq.
    rewrite <- (map_nth_seq l0 NaN) at 2. apply map_ext. intros i.
    apply interleave3_nth; congruence.
  - rewrite <- H1. rewrite <- (map_nth_seq l1 NaN) at 2. apply map_ext. intros i.
    apply interleave3_nth; congruence.
  - rewrite <- H2. rewrite <- (map_nth_seq l2 NaN) at 2. apply map_ext. intros i.
    apply interleave3_nth; congruence.
Qed.

Lemma clip_unit_cases (v : float64) :
  v = NaN /\ F64.clip (Fin 0) (Fin 1) v = NaN \/
  F64.in_unit (F64.clip (Fin 0) (Fin 1) v).
Proof.
  unfold F64.clip, F64.in_unit.
  destruct v as [x| | |]; cbn [F64.maximum F64.minimum].
  - right. eexists. split; [reflexivity|].
    unfold Rmin, Rmax. repeat destruct Rle_dec; lra.
  - right. exists 1%R. split; [reflexivity | lra].
  - right. eexists. split; [reflexivity|].
    unfold Rmin. destruct Rle_dec; lra.
  - now left.
Qed.

Lemma clip_below_above (x : R) :
  ((x < 0)%R -> F64.clip (Fin 0) (Fin 1) (Fin x) = Fin 0) /\
  ((1 < x)%R -> F64.clip (Fin 0) (Fin 1) (Fin x) = Fin 1) /\
  ((0 <= x <= 1)%R -> F64.clip (Fin 0) (Fin 1) (Fin x) = Fin x).
Proof.
  unfold F64.clip. cbn [F64.maximum F64.minimum]. unfold Rmin, Rmax.
  repeat split; intros H; f_equal; repeat destruct Rle_dec; lra.
Qed.

Lemma same_shape_true (a b : ndarray) :
  Np.same_shape a b = true <-> shape a = shape b.
Proof.
  unfold Np.same_shape, shape. rewrite andb_true_iff, !Nat.eqb_eq.
  split; [intros [-> ->]; reflexivity | intros [= -> ->]; auto].
Qed.

(** X20. create_gradient_image.py does what C4 asks of same-shaped,
    well-formed fields: shape (height, width, 3), each channel the clamped
    input, every element in [[0,1]] unless the input element is NaN. *)
Lemma GradientImage_rgb_combination_clamps (a b c : ndarray) :
  wf a -> wf b -> wf c -> shape b = shape a -> shape c = shape a ->
  exists img,
    GradientImage.create_rgb_combination (PyArray a) (PyArray b) (PyArray c)
    = ([], Return img) /\
    shape3 img = (nrows a, ncols a, 3) /\
    Np.channel img 0 = amap (F64.clip (Fin 0) (Fin 1)) a /\
    Np.channel img 1 = amap (F64.clip (Fin 0) (Fin 1)) b /\
    Np.channel img 2 = amap (F64.clip (Fin 0) (Fin 1)) c /\
    Forall (fun v => v = NaN \/ F64.in_unit v) (data3 img).
Proof.
  intros Wa Wb Wc Sb Sc.
  unfold GradientImage.create_rgb_combination, Np.stack_last.
  cbn [GradientImage.validate_gradient_array bind ret app].
  assert (Eab : Np.same_shape a b = true) by now apply same_shape_true.
  assert (Eac : Np.same_shape a c = true) by now apply same_shape_true.
  rewrite Eab, Eac. cbn.
  eexists. split; [reflexivity|].
  unfold Np.clip, amap3, shape3. cbn [dim0 dim1 dim2 data3].
  split; [reflexivity|].
  rewrite map_interleave3.
  unfold wf, shape in *. injection Sb as Hb1 Hb2. injection Sc as Hc1 Hc2.
  destruct (channel_interleave3 (nrows a) (ncols a)
              (map (F64.clip (Fin 0) (Fin 1)) (data a))
              (map (F64.clip (Fin 0) (Fin 1)) (data b))
              (map (F64.clip (Fin 0) (Fin 1)) (data c)))
    as (C0 & C1 & C2); rewrite ?length_map; try congruence.
  rewrite C0, C1, C2. unfold amap. rewrite Hb1, Hb2, Hc1, Hc2.
  repeat split; try reflexivity.
  rewrite <- map_interleave3. apply Forall_forall. intros v Hv.
  apply in_map_iff in Hv. destruct Hv as (u & <- & _).
  destruct (clip_unit_cases u) as [[_ ->]|H]; auto.
Qed.

(** C4 (the code departs from the claim). create_gradient_on_image.py
    stacks without clamping: for the 1x1 fields 2, 1/2 and -1 the result
    keeps 2 in channel 0 and -1 in channel 2, both outside [[0,1]]. *)
Theorem GradientOnImage_rgb_combination_not_clamped :
  exists img,
    GradientOnImage.create_rgb_combination
      (PyArray (mkArr 1 1 [Fin 2])) (PyArray (mkArr 1 1 [Fin (1 / 2)]))
      (PyArray (mkArr 1 1 [Fin (-1)]))
    = ([], Return img) /\
    get3 img 0 0 0 = Some (Fin 2) /\
    get3 img 0 0 2 = Some (Fin (-1)) /\
    ~ F64.in_unit (Fin 2) /\ ~ F64.in_unit (Fin (-1)) /\
    F64.clip (Fin 0) (Fin 1) (Fin 2) = Fin 1 /\
    F64.clip (Fin 0) (Fin 1) (Fin (-1)) = Fin 0.
Proof.
  eexists. split; [reflexivity|].
  split; [reflexivity|]. split; [reflexivity|].
  split; [intros (x & [= <-] & H); lra|].
  split; [intros (x & [= <-] & H); lra|].
  split; [apply clip_below_above; lra | apply clip_below_above; lra].
Qed.

(** ** How failures are surfaced *)

Lemma quiet_ret {A} (a : A) : quiet (ret a).
Proof. split; [reflexivity | discriminate]. Qed.

Lemma quiet_raise {A} (e : exn) : is_Exception e = true -> quiet (@raise A e).
Proof. intros He. split; [reflexivity|]. intros e' [= <-]. exact He. Qed.

Lemma quiet_bind {A B} (m : Py A) (k : A -> Py B) :
  quiet m -> (forall a, quiet (k a)) -> quiet (bind m k).
Proof.
  destruct m as [out [a|e]]; intros [Ho He] Hk; cbn in Ho; subst out.
  - unfold bind. specialize (Hk a). destruct (k a) as [out' r]. exact Hk.
  - split; [reflexivity|]. intros e' [= <-]. exact (He e eq_refl).
Qed.

Lemma quiet_try_except {A} (m : Py A) (h : exn -> Py A) :
  quiet m -> (forall e, quiet (h e)) -> quiet (try_except m h).
Proof.
  destruct m as [out [a|e]]; intros [Ho He] Hh; cbn in Ho; subst out.
  - split; [reflexivity | discriminate].
  - unfold try_except. rewrite (He e eq_refl).
    specialize (Hh e). destruct (h e) as [out' r]. exact Hh.
Qed.


Create HintDb quiet.

#[local] Hint Resolve quiet_ret : quiet.
#[local] Hint Extern 1 (quiet (raise _)) => apply quiet_raise; reflexivity : quiet.

Ltac quiet_step :=
  first
    [ solve [ auto with quiet ]
    | apply quiet_bind; [| intros ]
    | apply quiet_try_except; [| intros ]
    | match goal with
      | |- quiet (if ?b then _ else _) => destruct b
      | |- quiet (match ?x with _ => _ end) => destruct x
      end ].

Ltac quiet_auto := cbv zeta; repeat quiet_step.

Lemma quiet_linspace (s e : R) (num : pyval) : quiet (Np.linspace s e num).
Proof. unfold Np.linspace. quiet_auto. Qed.

Lemma quiet_sub_scalar (a : ndarray) (v : pyval) : quiet (Np.sub_scalar a v).
Proof. unfold Np.sub_scalar. quiet_auto. Qed.

Lemma quiet_max (a : ndarray) : quiet (Np.max a).
Proof. unfold Np.max. quiet_auto. Qed.

Lemma quiet_stack_last (a b c : ndarray) : quiet (Np.stack_last a b c).
Proof. unfold Np.stack_last. quiet_auto. Qed.

#[local] Hint Resolve quiet_linspace quiet_sub_scalar quiet_max quiet_stack_last
  : quiet.

Lemma quiet_validate_width_and_height (w h : pyval) :
  quiet (GradientImage.validate_width_and_height w h).
Proof. unfold GradientImage.validate_width_and_height. quiet_auto. Qed.

Lemma quiet_validate_center_coordinates (x y : pyval) :
  quiet (GradientImage.validate_center_coordinates x y).
Proof. unfold GradientImage.validate_center_coordinates. quiet_auto. Qed.

Lemma quiet_validate_gradient_array (g : pyval) :
  quiet (GradientImage.validate_gradient_array g).
Proof. unfold GradientImage.validate_gradient_array. quiet_auto. Qed.

Lemma quiet_validate_direction (d : pyval) :
  quiet (GradientImage.validate_direction d).
Proof. unfold GradientImage.validate_direction. quiet_auto. Qed.

#[local] Hint Resolve quiet_validate_width_and_height
  quiet_validate_center_coordinates quiet_validate_gradient_array
  quiet_validate_direction : quiet.

Lemma quiet_GradientImage_grids (w h : pyval) :
  quiet (GradientImage.create_coordinate_grids w h).
Proof. unfold GradientImage.create_coordinate_grids. quiet_auto. Qed.

#[local] Hint Resolve quiet_GradientImage_grids : quiet.


Lemma quiet_or_exit_bind {A B} (m : Py A) (k : A -> Py B) :
  quiet_or_exit m -> (forall a, quiet_or_exit (k a)) -> quiet_or_exit (bind m k).
Proof.
  intros [Hm | [msg ->]] Hk.
  - destruct m as [out [a|e]]; destruct Hm as [Ho He]; cbn in Ho; subst out.
    + unfold bind. specialize (Hk a). destruct (k a) as [out' r]. exact Hk.
    + left. split; [reflexivity|]. intros e' [= <-]. exact (He e eq_refl).
  - right. exists msg. reflexivity.
Qed.

Lemma exit_on_exception_outcome {A} (m : Py A) :
  quiet_or_exit m ->
  (exists a, GradientOnImage.exit_on_exception m = ([], Return a)) \/
  exits_with_diagnostic (GradientOnImage.exit_on_exception m).
Proof.
  intros [Hm | [msg ->]].
  - destruct m as [out [a|e]]; destruct Hm as [Ho He]; cbn in Ho; subst out.
    + left. exists a. reflexivity.
    + right. exists (str_exn e).
      unfold GradientOnImage.exit_on_exception, try_except.
      rewrite (He e eq_refl). reflexivity.
  - right. exists msg. reflexivity.
Qed.

Lemma outcome_quiet_or_exit {A} (m : Py A) :
  returns_or_type_error_or_exit m -> quiet_or_exit m.
Proof.
  intros [[a ->] | [[msg ->] | H]].
  - left. apply quiet_ret.
  - left. now apply quiet_raise.
  - now right.
Qed.

Lemma exit_on_exception_class {A} (m : Py A) :
  quiet_or_exit m ->
  returns_or_type_error_or_exit (GradientOnImage.exit_on_exception m).
Proof.
  intros H. destruct (exit_on_exception_outcome m H) as [E|E].
  - now left.
  - right. now right.
Qed.

Lemma check_width_height_class {A} (w h : pyval) (k : Py A) :
  returns_or_type_error_or_exit k ->
  returns_or_type_error_or_exit (GradientOnImage.check_width_height w h k).
Proof.
  intros Hk. unfold GradientOnImage.check_width_height.
  destruct (negb (GradientOnImage.is_int w)); [right; left; eexists; reflexivity|].
  destruct (negb (GradientOnImage.is_int h)); [right; left; eexists; reflexivity|].
  exact Hk.
Qed.

Ltac qx_step :=
  first
    [ left; solve [ auto with quiet ]
    | apply outcome_quiet_or_exit; solve [ auto with quiet ]
    | apply quiet_or_exit_bind; [| intros ]
    | match goal with
      | |- quiet_or_exit (match ?x with _ => _ end) => destruct x
      end ].

Ltac qx_auto := cbv zeta; repeat qx_step.

Lemma GradientOnImage_grids_class (w h : pyval) :
  returns_or_type_error_or_exit (GradientOnImage.create_coordinate_grids w h).
Proof.
  apply check_width_height_class, exit_on_exception_class. qx_auto.
Qed.

#[local] Hint Resolve GradientOnImage_grids_class : quiet.

Lemma GradientOnImage_linear_class (w h : pyval) :
  returns_or_type_error_or_exit (GradientOnImage.create_linear_gradients w h).
Proof.
  apply check_width_height_class, exit_on_exception_class. qx_auto.
Qed.

Lemma GradientOnImage_apply_direction_class (g d : pyval) :
  returns_or_type_error_or_exit (GradientOnImage.apply_direction_to_gradient g d).
Proof.
  unfold GradientOnImage.apply_direction_to_gradient.
  destruct g; try (right; left; eexists; reflexivity).
  destruct d; try (right; left; eexists; reflexivity).
  apply exit_on_exception_class. qx_auto.
Qed.

#[local] Hint Resolve GradientOnImage_linear_class
  GradientOnImage_apply_direction_class : quiet.




(** ** Shape agreement in [create_rgb_combination] *)

Lemma shapes_agree_true (a b c : ndarray) :
  shapes_agree a b c = true <-> shape a = shape b /\ shape a = shape c.
Proof.
  unfold shapes_agree. rewrite andb_true_iff, !same_shape_true. reflexivity.
Qed.

(** C5 (counterexample). With a (4,4) field and a (5,5) field,
    [create_rgb_combination] of create_gradient_on_image.py does not raise
    an error to its caller: it prints the NumPy message and exits. *)
Lemma GradientOnImage_shape_mismatch_exits :
  let a := mkArr 4 4 (repeat (Fin 0) 16) in
  let b := mkArr 5 5 (repeat (Fin 0) 25) in
  shape b <> shape a /\
  GradientOnImage.create_rgb_combination (PyArray a) (PyArray b) (PyArray a)
  = (["Exception: all input arrays must have the same shape"],
     Raise (SystemExit 1)) /\
  ~ raises_to_caller
      (GradientOnImage.create_rgb_combination (PyArray a) (PyArray b) (PyArray a)).
Proof.
  intros a b.
  assert (E : GradientOnImage.create_rgb_combination (PyArray a) (PyArray b) (PyArray a)
              = (["Exception: all input arrays must have the same shape"],
                 Raise (SystemExit 1))) by reflexivity.
  split; [discriminate|]. split; [exact E|].
  rewrite E. intros [H _]. discriminate H.
Qed.

(** C5 (amended). For any three fields, create_gradient_image.py returns
    the clamped stack when the three shapes agree and otherwise raises
    [RuntimeError] carrying NumPy's shape-mismatch message, and nothing
    else; create_gradient_on_image.py returns the stack when the shapes
    agree and otherwise prints that message and exits with status 1. *)
Theorem create_rgb_combination_shape_outcomes (a b c : ndarray) :
  (shapes_agree a b c = true <-> shape a = shape b /\ shape a = shape c) /\
  GradientImage.create_rgb_combination (PyArray a) (PyArray b) (PyArray c)
  = (if shapes_agree a b c
     then ([], Return (Np.clip (stacked a b c) (Fin 0) (Fin 1)))
     else ([], Raise (RuntimeError
            "Error combining RGB channels: all input arrays must have the same shape"))) /\
  GradientOnImage.create_rgb_combination (PyArray a) (PyArray b) (PyArray c)
  = (if shapes_agree a b c
     then ([], Return (stacked a b c))
     else (["Exception: all input arrays must have the same shape"],
           Raise (SystemExit 1))).
Proof.
  split; [apply shapes_agree_true|].
  unfold GradientImage.create_rgb_combination,
    GradientOnImage.create_rgb_combination, GradientOnImage.exit_on_exception,
    Np.stack_last, stacked.
  fold (shapes_agree a b c).
  destruct (shapes_agree a b c); split; reflexivity.
Qed.

(** ** Radial gradient *)

Lemma dist_nonneg (x y cx cy : R) : (0 <= dist x y cx cy)%R.
Proof. apply sqrt_pos. Qed.

Lemma point_distance (x y cx cy : R) :
  F64.sqrt (F64.add (F64.square (F64.sub (Fin x) (Fin cx)))
                    (F64.square (F64.sub (Fin y) (Fin cy))))
  = Fin (dist x y cx cy).
Proof.
  unfold F64.sub. cbn [F64.neg F64.add F64.square F64.sqrt].
  destruct Rlt_dec as [H|_]; [|reflexivity].
  exfalso.
  pose proof (Rle_0_sqr (x + - cx)) as Hx.
  pose proof (Rle_0_sqr (y + - cy)) as Hy.
  unfold Rsqr in Hx, Hy. lra.
Qed.

Lemma nth_error_zip_with (f : float64 -> float64 -> float64)
    (l1 l2 : list float64) (i : nat) :
  nth_error (zip_with f l1 l2) i
  = match nth_error l1 i, nth_error l2 i with
    | Some a, Some b => Some (f a b)
    | _, _ => None
    end.
Proof.
  revert l2 i. induction l1 as [|a l1 IH]; intros [|b l2] [|i]; cbn; try reflexivity.
  - now destruct (nth_error l1 i).
  - apply IH.
Qed.

Lemma length_zip_with (f : float64 -> float64 -> float64) (l1 l2 : list float64) :
  List.length (zip_with f l1 l2) = Nat.min (List.length l1) (List.length l2).
Proof.
  revert l2. induction l1 as [|a l1 IH]; intros [|b l2]; cbn; auto.
Qed.

Lemma in_zip_with (f : float64 -> float64 -> float64) (l1 l2 : list float64)
    (v : float64) :
  In v (zip_with f l1 l2) -> exists a b, In a l1 /\ In b l2 /\ v = f a b.
Proof.
  revert l2. induction l1 as [|a l1 IH]; intros [|b l2]; cbn; try tauto.
  intros [<- | H].
  - exists a, b. auto.
  - destruct (IH _ H) as (a' & b' & Ha & Hb & ->). exists a', b'. auto.
Qed.

Lemma radial_of_shape (X Y : ndarray) (cx cy : float64) :
  shape (radial_of X Y cx cy) = shape X.
Proof. reflexivity. Qed.

Lemma radial_of_length (X Y : ndarray) (cx cy : float64) :
  List.length (data (radial_of X Y cx cy))
  = Nat.min (List.length (data X)) (List.length (data Y)).
Proof.
  unfold radial_of, Np.sqrt, Np.add, Np.square, amap, amap2.
  cbn [data]. now rewrite length_map, length_zip_with, !length_map.
Qed.

Lemma radial_of_get (X Y : ndarray) (cx cy x y : R) (r c : nat) :
  ncols Y = ncols X ->
  get X r c = Some (Fin x) -> get Y r c = Some (Fin y) ->
  get (radial_of X Y (Fin cx) (Fin cy)) r c = Some (Fin (dist x y cx cy)).
Proof.
  unfold get, radial_of, Np.sqrt, Np.add, Np.square, amap, amap2.
  cbn [nrows ncols data]. intros Hc.
  destruct ((r <? nrows X) && (c <? ncols X)); [|discriminate].
  destruct ((r <? nrows Y) && (c <? ncols Y)); [|discriminate].
  rewrite Hc. intros HX HY.
  rewrite nth_error_map, nth_error_zip_with, !nth_error_map, HX, HY.
  cbn [option_map]. now rewrite point_distance.
Qed.

Lemma radial_of_nonneg (X Y : ndarray) (cx cy : R) :
  Forall finite (data X) -> Forall finite (data Y) ->
  Forall nonneg_fin (data (radial_of X Y (Fin cx) (Fin cy))).
Proof.
  intros HX HY. apply Forall_forall. intros v Hv.
  unfold radial_of, Np.sqrt, Np.add, Np.square, amap, amap2 in Hv.
  cbn [data] in Hv.
  apply in_map_iff in Hv. destruct Hv as (s & <- & Hs).
  apply in_zip_with in Hs. destruct Hs as (a & b & Ha & Hb & ->).
  apply in_map_iff in Ha. destruct Ha as (a' & <- & Ha).
  apply in_map_iff in Ha. destruct Ha as (x & <- & Hx).
  apply in_map_iff in Hb. destruct Hb as (b' & <- & Hb).
  apply in_map_iff in Hb. destruct Hb as (y & <- & Hy).
  rewrite Forall_forall in HX, HY.
  destruct (HX _ Hx) as [xr ->]. destruct (HY _ Hy) as [yr ->].
  rewrite point_distance. eexists. split; [reflexivity | apply dist_nonneg].
Qed.

Lemma linspace_vals_finite (s e : R) (n : nat) :
  Forall finite (Np.linspace_vals s e n).
Proof.
  unfold Np.linspace_vals. apply Forall_forall. intros v Hv.
  apply in_map_iff in Hv. destruct Hv as (x & <- & _). now exists x.
Qed.

Lemma grids_finite (w h : nat) :
  Forall finite (data (fst (grids w h))) /\
  Forall finite (data (snd (grids w h))).
Proof.
  unfold grids, Np.meshgrid. cbn [fst snd data].
  pose proof (linspace_vals_finite 0 1 w) as Fx.
  pose proof (linspace_vals_finite 0 1 h) as Fy.
  rewrite Forall_forall in Fx, Fy.
  split; apply Forall_forall; intros v Hv.
  - apply in_concat in Hv. destruct Hv as (l & Hl & Hv).
    apply repeat_spec in Hl. subst l. now apply Fx.
  - apply in_flat_map in Hv. destruct Hv as (u & Hu & Hv).
    apply repeat_spec in Hv. subst v. now apply Fy.
Qed.

(** [np.max] of finite values is one of them and bounds them all. *)
Lemma fold_maximum_finite (t : list float64) (v : float64) :
  finite v -> Forall finite t ->
  exists m, fold_left F64.maximum t v = Fin m /\
            In (Fin m) (v :: t) /\
            forall d, In (Fin d) (v :: t) -> (d <= m)%R.
Proof.
  revert v. induction t as [|u t IH]; intros v [a ->] Ht.
  - exists a. cbn. split; [reflexivity|]. split; [auto|].
    intros d [[= <-]|[]]. lra.
  - inversion Ht as [|? ? [b ->] Ht']; subst.
    destruct (IH (F64.maximum (Fin a) (Fin b))) as (m & Em & Im & Bm);
      [now eexists | assumption |].
    exists m. cbn [fold_left]. split; [exact Em|].
    cbn [F64.maximum] in Im, Bm. split.
    + destruct Im as [[= <-]|Im].
      * unfold Rmax. destruct Rle_dec; cbn; auto.
      * cbn. auto.
    + intros d [[= <-]|[[= <-]|Hd]].
      * eapply Rle_trans; [apply Rmax_l | apply Bm; left; reflexivity].
      * eapply Rle_trans; [apply Rmax_r | apply Bm; left; reflexivity].
      * apply Bm. now right.
Qed.

Lemma amax_finite (a : ndarray) :
  data a <> [] -> Forall finite (data a) ->
  exists m, amax a = Fin m /\ In (Fin m) (data a) /\
            forall d, In (Fin d) (data a) -> (d <= m)%R.
Proof.
  unfold amax. destruct (data a) as [|v t]; [congruence|].
  intros _ H. inversion H; subst. now apply fold_maximum_finite.
Qed.

Lemma np_max_nonempty (a : ndarray) : data a <> [] -> Np.max a = ret (amax a).
Proof.
  unfold Np.max, amax. destruct (data a); [congruence | reflexivity].
Qed.

Lemma nonneg_fin_finite (l : list float64) : Forall nonneg_fin l -> Forall finite l.
Proof.
  apply Forall_impl. intros v (d & -> & _). now exists d.
Qed.

Lemma sub_scalar_center (a : ndarray) (v : pyval) (c : float64) :
  center_float v = Some c ->
  Np.sub_scalar a v = ret (amap (fun e => F64.sub e c) a).
Proof.
  destruct v; cbn [center_float Np.sub_scalar]; try discriminate.
  - intros ->. reflexivity.
  - intros [= <-]. reflexivity.
Qed.

Lemma grids_radial_nonempty (w h : nat) (cx cy : float64) :
  0 < w -> 0 < h ->
  data (radial_of (fst (grids w h)) (snd (grids w h)) cx cy) <> [].
Proof.
  intros Hw Hh E. apply (f_equal (@List.length _)) in E.
  rewrite radial_of_length in E.
  destruct (grids_wf w h) as [WX WY]. unfold wf in WX, WY.
  rewrite WX, WY in E. unfold grids, Np.meshgrid in E.
  cbn [fst snd nrows ncols] in E. rewrite !linspace_vals_length in E.
  cbn [List.length] in E. nia.
Qed.

Lemma GradientImage_radial_eval (w h : Z) (cxv cyv : pyval) (cx cy : float64) :
  (0 < w)%Z -> (0 < h)%Z ->
  center_float cxv = Some cx -> center_float cyv = Some cy ->
  GradientImage.create_radial_gradient (PyInt w) (PyInt h) cxv cyv
  = ret (guarded_radial (Z.to_nat w) (Z.to_nat h) cx cy).
Proof.
  intros Hw Hh Hx Hy. unfold GradientImage.create_radial_gradient.
  rewrite validate_width_and_height_pos, bind_ret_l by assumption.
  assert (V : GradientImage.validate_center_coordinates cxv cyv = ret tt).
  { unfold GradientImage.validate_center_coordinates.
    destruct cxv; try discriminate; destruct cyv; try discriminate; reflexivity. }
  rewrite V, bind_ret_l, GradientImage_grids, bind_ret_l by assumption.
  pose proof (grids_radial_nonempty (Z.to_nat w) (Z.to_nat h) cx cy) as NE.
  unfold guarded_radial.
  destruct (grids (Z.to_nat w) (Z.to_nat h)) as [X Y]. cbn [fst snd] in *.
  rewrite (sub_scalar_center X cxv cx Hx), bind_ret_l.
  rewrite (sub_scalar_center Y cyv cy Hy), bind_ret_l.
  cbv zeta. fold (radial_of X Y cx cy).
  rewrite np_max_nonempty, bind_ret_l by (apply NE; lia).
  destruct (F64.gtb (amax (radial_of X Y cx cy)) (Fin 0)); reflexivity.
Qed.

Lemma GradientOnImage_radial_eval (w h : Z) (cx cy : float64) :
  (0 < w)%Z -> (0 < h)%Z ->
  GradientOnImage.create_radial_gradient (PyInt w) (PyInt h) (PyFloat cx) (PyFloat cy)
  = ret (unguarded_radial (Z.to_nat w) (Z.to_nat h) cx cy).
Proof.
  intros Hw Hh.
  unfold GradientOnImage.create_radial_gradient, GradientOnImage.check_width_height.
  cbn [GradientOnImage.is_int GradientOnImage.is_float negb].
  rewrite GradientOnImage_grids, bind_ret_l by lia.
  pose proof (grids_radial_nonempty (Z.to_nat w) (Z.to_nat h) cx cy) as NE.
  unfold unguarded_radial.
  destruct (grids (Z.to_nat w) (Z.to_nat h)) as [X Y]. cbn [fst snd] in *.
  cbn [Np.sub_scalar]. rewrite !bind_ret_l.
  cbv zeta. fold (radial_of X Y cx cy).
  rewrite np_max_nonempty, bind_ret_l by (apply NE; lia).
  reflexivity.
Qed.

Lemma grids_1x1 : grids 1 1 = (mkArr 1 1 [Fin (0 * (1 - 0) + 0)],
                               mkArr 1 1 [Fin (0 * (1 - 0) + 0)]).
Proof. reflexivity. Qed.

Lemma radial_1x1_origin :
  radial_of (fst (grids 1 1)) (snd (grids 1 1)) (Fin 0) (Fin 0) = mkArr 1 1 [Fin 0].
Proof.
  rewrite grids_1x1. unfold radial_of, Np.sqrt, Np.add, Np.square, amap, amap2.
  cbn [fst snd nrows ncols data map zip_with].
  rewrite point_distance. do 3 f_equal. unfold dist.
  replace ((0 * (1 - 0) + 0 + - 0) * (0 * (1 - 0) + 0 + - 0)
           + (0 * (1 - 0) + 0 + - 0) * (0 * (1 - 0) + 0 + - 0))%R with 0%R by ring.
  apply sqrt_0.
Qed.

(** The guard of create_gradient_image.py at work: on the 1x1 grid with
    the centre on its single point the maximum is 0, nothing is divided
    and the field returned is all zero. *)
Lemma GradientImage_radial_degenerate :
  GradientImage.create_radial_gradient (PyInt 1) (PyInt 1)
    (PyFloat (Fin 0)) (PyFloat (Fin 0))
  = ([], Return (mkArr 1 1 [Fin 0])).
Proof.
  rewrite (GradientImage_radial_eval 1 1 _ _ (Fin 0) (Fin 0)) by (lia || reflexivity).
  unfold guarded_radial. change (Z.to_nat 1) with 1.
  rewrite radial_1x1_origin. unfold amax. cbn [data fold_left F64.gtb].
  destruct (Rlt_dec 0 0) as [H|_]; [lra | reflexivity].
Qed.

(** C2 (the code departs from the claim). On the 1x1 grid with the centre
    on its single point, create_gradient_on_image.py divides the zero
    distance by the zero maximum: the field returned holds NaN, not 0. *)
Theorem GradientOnImage_radial_degenerate_divides_by_zero :
  GradientOnImage.create_radial_gradient (PyInt 1) (PyInt 1)
    (PyFloat (Fin 0)) (PyFloat (Fin 0))
  = ([], Return (mkArr 1 1 [NaN])) /\
  Np.max (radial_of (fst (grids 1 1)) (snd (grids 1 1)) (Fin 0) (Fin 0))
  = ([], Return (Fin 0)).
Proof.
  rewrite GradientOnImage_radial_eval by lia.
  unfold unguarded_radial. change (Z.to_nat 1) with 1.
  rewrite radial_1x1_origin. unfold amax, Np.div_scalar, amap, Np.max, ret.
  cbn [data fold_left nrows ncols map F64.div].
  destruct (Req_dec_T 0 0) as [_|H]; [|congruence]. split; reflexivity.
Qed.

Lemma dist_zero (x y cx cy : R) : dist x y cx cy = 0%R -> x = cx /\ y = cy.
Proof.
  unfold dist. intros H.
  pose proof (Rle_0_sqr (x + - cx)) as Hx.
  pose proof (Rle_0_sqr (y + - cy)) as Hy.
  unfold Rsqr in Hx, Hy.
  apply sqrt_eq_0 in H; [|lra].
  assert (Ex : ((x + - cx) * (x + - cx) = 0)%R) by lra.
  assert (Ey : ((y + - cy) * (y + - cy) = 0)%R) by lra.
  apply Rmult_integral in Ex. apply Rmult_integral in Ey. lra.
Qed.

Lemma get_In (a : ndarray) (r c : nat) (v : float64) :
  get a r c = Some v -> In v (data a).
Proof.
  unfold get. destruct (_ && _); [|discriminate]. apply nth_error_In.
Qed.

(** Two grid points that differ cannot both lie on the centre. *)
Lemma two_points_positive (a : ndarray) (cx cy x1 y1 x2 y2 : R)
    (r1 c1 r2 c2 : nat) :
  get a r1 c1 = Some (Fin (dist x1 y1 cx cy)) ->
  get a r2 c2 = Some (Fin (dist x2 y2 cx cy)) ->
  x1 <> x2 \/ y1 <> y2 ->
  exists d, In (Fin d) (data a) /\ (0 < d)%R.
Proof.
  intros G1 G2 Hne.
  destruct (Req_dec_T (dist x1 y1 cx cy) 0) as [Z1|N1].
  - destruct (Req_dec_T (dist x2 y2 cx cy) 0) as [Z2|N2].
    + apply dist_zero in Z1, Z2. exfalso. lra.
    + exists (dist x2 y2 cx cy). split; [eapply get_In; eassumption|].
      pose proof (dist_nonneg x2 y2 cx cy). lra.
  - exists (dist x1 y1 cx cy). split; [eapply get_In; eassumption|].
    pose proof (dist_nonneg x1 y1 cx cy). lra.
Qed.

Lemma unit_coord_first (n : nat) : unit_coord 0 n = 0%R.
Proof.
  unfold unit_coord. destruct (n =? 1); [reflexivity|].
  cbn [INR]. unfold Rdiv. ring.
Qed.

Lemma unit_coord_last (n : nat) : 1 < n -> unit_coord (n - 1) n = 1%R.
Proof.
  intros Hn. unfold unit_coord.
  replace (n =? 1) with false by (symmetry; apply Nat.eqb_neq; lia).
  field. apply not_0_INR. lia.
Qed.

Lemma grids_radial_positive (w h : nat) (cx cy : R) :
  0 < w -> 0 < h -> 1 < w * h ->
  exists d,
    In (Fin d) (data (radial_of (fst (grids w h)) (snd (grids w h)) (Fin cx) (Fin cy)))
    /\ (0 < d)%R.
Proof.
  intros Hw Hh Hwh.
  assert (Hc : ncols (snd (grids w h)) = ncols (fst (grids w h))) by reflexivity.
  assert (G : forall r c, r < h -> c < w ->
            get (radial_of (fst (grids w h)) (snd (grids w h)) (Fin cx) (Fin cy)) r c
            = Some (Fin (dist (unit_coord c w) (unit_coord r h) cx cy))).
  { intros r c Hr Hcw. destruct (grids_get w h r c Hr Hcw) as [GX GY].
    now apply radial_of_get. }
  destruct (Nat.eq_dec w 1) as [->|Hw1].
  - apply (two_points_positive _ cx cy _ _ _ _ 0 0 (h - 1) 0
             (G 0 0 ltac:(lia) ltac:(lia)) (G (h - 1) 0 ltac:(lia) ltac:(lia))).
    right. rewrite unit_coord_first, unit_coord_last by lia. lra.
  - apply (two_points_positive _ cx cy _ _ _ _ 0 0 0 (w - 1)
             (G 0 0 ltac:(lia) ltac:(lia)) (G 0 (w - 1) ltac:(lia) ltac:(lia))).
    left. rewrite unit_coord_first, unit_coord_last by lia. lra.
Qed.

Lemma div_by_nonzero (d m : R) : m <> 0%R -> F64.div (Fin d) (Fin m) = Fin (d / m).
Proof.
  intros Hm. cbn [F64.div]. destruct (Req_dec_T m 0); [contradiction | reflexivity].
Qed.

(** Dividing non-negative values by their positive maximum puts them in
    the unit interval with maximum exactly 1. *)
Lemma normalise_by_max (a : ndarray) (m : R) :
  Forall nonneg_fin (data a) ->
  In (Fin m) (data a) -> (forall d, In (Fin d) (data a) -> (d <= m)%R) ->
  (0 < m)%R ->
  Forall F64.in_unit (data (Np.div_scalar a (Fin m))) /\
  Np.max (Np.div_scalar a (Fin m)) = ([], Return (Fin 1)).
Proof.
  intros Hnn Him Hb Hm.
  assert (Hinv : (m * / m = 1)%R) by (field; lra).
  assert (Hpos : (0 < / m)%R) by now apply Rinv_0_lt_compat.
  assert (U : Forall F64.in_unit (data (Np.div_scalar a (Fin m)))).
  { unfold Np.div_scalar, amap. cbn [data]. apply Forall_forall. intros v Hv.
    apply in_map_iff in Hv. destruct Hv as (u & <- & Hu).
    rewrite Forall_forall in Hnn. destruct (Hnn _ Hu) as (d & -> & Hd).
    rewrite div_by_nonzero by lra. exists (d / m)%R. split; [reflexivity|].
    specialize (Hb d Hu). unfold Rdiv. nra. }
  split; [exact U|].
  assert (I1 : In (Fin 1) (data (Np.div_scalar a (Fin m)))).
  { unfold Np.div_scalar, amap. cbn [data]. apply in_map_iff.
    exists (Fin m). split; [|exact Him].
    rewrite div_by_nonzero by lra. f_equal. unfold Rdiv. exact Hinv. }
  assert (NE : data (Np.div_scalar a (Fin m)) <> []).
  { intros E. rewrite E in I1. contradiction. }
  assert (F : Forall finite (data (Np.div_scalar a (Fin m)))).
  { revert U. apply Forall_impl. intros v (x & -> & _). now exists x. }
  rewrite np_max_nonempty by exact NE.
  destruct (amax_finite _ NE F) as (m' & -> & Im' & Bm').
  unfold ret. do 3 f_equal.
  rewrite Forall_forall in U. destruct (U _ Im') as (x & [= <-] & Hx).
  specialize (Bm' 1%R I1). lra.
Qed.

(** On a grid with more than one point the maximum distance is positive,
    so the guard of create_gradient_image.py is taken and both modules
    return the same normalised field. *)
Lemma radial_normalised (w h : nat) (cx cy : R) :
  0 < w -> 0 < h -> 1 < w * h ->
  guarded_radial w h (Fin cx) (Fin cy) = unguarded_radial w h (Fin cx) (Fin cy) /\
  shape (unguarded_radial w h (Fin cx) (Fin cy)) = (h, w) /\
  Forall F64.in_unit (data (unguarded_radial w h (Fin cx) (Fin cy))) /\
  Np.max (unguarded_radial w h (Fin cx) (Fin cy)) = ([], Return (Fin 1)).
Proof.
  intros Hw Hh Hwh. unfold guarded_radial, unguarded_radial. cbv zeta.
  set (r := radial_of (fst (grids w h)) (snd (grids w h)) (Fin cx) (Fin cy)).
  assert (Hnn : Forall nonneg_fin (data r))
    by (apply radial_of_nonneg; apply grids_finite).
  assert (NE : data r <> []) by now apply grids_radial_nonempty.
  destruct (amax_finite r NE (nonneg_fin_finite _ Hnn)) as (m & Em & Im & Bm).
  destruct (grids_radial_positive w h cx cy Hw Hh Hwh) as (d & Hd & Hpos).
  fold r in Hd. assert (Hm : (0 < m)%R) by (specialize (Bm d Hd); lra).
  rewrite Em. cbn [F64.gtb].
  destruct (Rlt_dec 0 m) as [_|N]; [|contradiction].
  split; [reflexivity|]. split.
  - unfold Np.div_scalar, amap, shape. cbn [nrows ncols].
    change (shape r = (h, w)). unfold r. rewrite radial_of_shape.
    apply grids_shape.
  - now apply normalise_by_max.
Qed.






(** A Python int beyond the float range passes the validation of
    create_gradient_image.py and fails in [X - center_x]; the [try]
    re-raises it as [RuntimeError]. *)
Lemma GradientImage_radial_overflow (w h : Z) (cxv cyv : pyval) :
  (0 < w)%Z -> (0 < h)%Z ->
  GradientImage.is_numeric cxv = true -> GradientImage.is_numeric cyv = true ->
  center_float cxv = None \/ center_float cyv = None ->
  GradientImage.create_radial_gradient (PyInt w) (PyInt h) cxv cyv
  = ([], Raise (RuntimeError
       "Error creating radial gradient: int too large to convert to float")).
Proof.
  intros Hw Hh Nx Ny Hn. unfold GradientImage.create_radial_gradient.
  rewrite validate_width_and_height_pos, bind_ret_l by assumption.
  unfold GradientImage.validate_center_coordinates. rewrite Nx, Ny. cbn [negb].
  rewrite bind_ret_l, GradientImage_grids, bind_ret_l by assumption.
  destruct (grids (Z.to_nat w) (Z.to_nat h)) as [X Y].
  destruct (center_float cxv) as [cx|] eqn:Ex.
  - rewrite (sub_scalar_center X cxv cx Ex), bind_ret_l.
    destruct Hn as [Hn|Hn]; [discriminate|].
    destruct cyv; try discriminate.
    cbn [center_float] in Hn. cbn [Np.sub_scalar]. rewrite Hn. reflexivity.
  - destruct cxv; try discriminate.
    cbn [center_float] in Ex. cbn [Np.sub_scalar]. rewrite Ex. reflexivity.
Qed.







(** * Further properties of the two modules *)

(** ** Dimension validation in create_gradient_image.py *)

Lemma GradientImage_rejects_non_positive_witness :
  GradientImage.is_numeric (PyInt 0) = true /\
  GradientImage.is_numeric (PyFloat (Fin 10)) = true /\
  GradientImage.le_zero (PyInt 0) || GradientImage.le_zero (PyFloat (Fin 10)) = true /\
  let e := ValueError "Width and height must be positive" in
  GradientImage.create_coordinate_grids (PyInt 0) (PyFloat (Fin 10)) = ([], Raise e) /\
  GradientImage.create_black_to_white_gradient (PyInt 0) (PyFloat (Fin 10))
  = ([], Raise e) /\
  GradientImage.create_linear_gradients (PyInt 0) (PyFloat (Fin 10)) = ([], Raise e) /\
  GradientImage.create_radial_gradient (PyInt 0) (PyFloat (Fin 10)) PyNone PyNone
  = ([], Raise e).
Proof.
  split; [reflexivity|]. split; [reflexivity|]. split; [reflexivity|].
  apply (GradientImage_rejects_non_positive (PyInt 0) (PyFloat (Fin 10)) PyNone PyNone);
    reflexivity.
Defined.

(** X2. In create_gradient_image.py a width or height that is neither an
    int nor a float makes every grid and field entry point raise a
    [TypeError] before anything else is looked at, whatever the other
    arguments are. *)
Theorem GradientImage_rejects_non_numeric (width height cx cy : pyval) :
  GradientImage.is_numeric width && GradientImage.is_numeric height = false ->
  exists msg,
    GradientImage.create_coordinate_grids width height
    = ([], Raise (TypeError msg)) /\
    GradientImage.create_black_to_white_gradient width height
    = ([], Raise (TypeError msg)) /\
    GradientImage.create_linear_gradients width height
    = ([], Raise (TypeError msg)) /\
    GradientImage.create_radial_gradient width height cx cy
    = ([], Raise (TypeError msg)).
Proof.
  intros H.
  assert (V : exists msg, GradientImage.validate_width_and_height width height
                          = ([], Raise (TypeError msg))).
  { unfold GradientImage.validate_width_and_height.
    destruct (GradientImage.is_numeric width); cbn [negb].
    - cbn [andb] in H. rewrite H. eexists. reflexivity.
    - eexists. reflexivity. }
  destruct V as [msg V]. exists msg.
  unfold GradientImage.create_coordinate_grids,
    GradientImage.create_black_to_white_gradient,
    GradientImage.create_linear_gradients,
    GradientImage.create_radial_gradient.
  rewrite V. repeat split; reflexivity.
Qed.

Lemma GradientImage_rejects_non_numeric_witness :
  GradientImage.is_numeric (PyInt 4) && GradientImage.is_numeric (PyStr "4") = false /\
  exists msg,
    GradientImage.create_coordinate_grids (PyInt 4) (PyStr "4")
    = ([], Raise (TypeError msg)) /\
    GradientImage.create_black_to_white_gradient (PyInt 4) (PyStr "4")
    = ([], Raise (TypeError msg)) /\
    GradientImage.create_linear_gradients (PyInt 4) (PyStr "4")
    = ([], Raise (TypeError msg)) /\
    GradientImage.create_radial_gradient (PyInt 4) (PyStr "4") PyNone PyNone
    = ([], Raise (TypeError msg)).
Proof.
  split; [reflexivity|].
  apply (GradientImage_rejects_non_numeric (PyInt 4) (PyStr "4") PyNone PyNone).
  reflexivity.
Defined.

Lemma GradientImage_grids_float_width (x : float64) (height : pyval) :
  exists e, GradientImage.create_coordinate_grids (PyFloat x) height = ([], Raise e).
Proof.
  unfold GradientImage.create_coordinate_grids,
    GradientImage.validate_width_and_height.
  cbn [GradientImage.is_numeric negb].
  destruct (negb (GradientImage.is_numeric height)); [eexists; reflexivity|].
  destruct (_ || _); eexists; reflexivity.
Qed.

Lemma GradientImage_grids_float_height (width : pyval) (y : float64) :
  exists e, GradientImage.create_coordinate_grids width (PyFloat y) = ([], Raise e).
Proof.
  unfold GradientImage.create_coordinate_grids,
    GradientImage.validate_width_and_height.
  destruct width as [z | x | | | |]; cbn [GradientImage.is_numeric negb];
    try (eexists; reflexivity).
  - cbn [GradientImage.le_zero].
    destruct (Z.leb_spec z 0) as [Hz|Hz]; cbn [orb]; [eexists; reflexivity|].
    destruct (F64.leb y (Fin 0)); [eexists; reflexivity|].
    rewrite bind_ret_l, linspace_nonneg, bind_ret_l by lia.
    eexists. reflexivity.
  - destruct (_ || _); eexists; reflexivity.
Qed.

Lemma GradientImage_grids_return_inv (width height : pyval) (o : list string)
    (p : ndarray * ndarray) :
  GradientImage.create_coordinate_grids width height = (o, Return p) ->
  exists w h : Z, width = PyInt w /\ height = PyInt h /\ (0 < w)%Z /\ (0 < h)%Z.
Proof.
  intros E.
  destruct width as [w | x | | | |]; try discriminate E.
  2:{ destruct (GradientImage_grids_float_width x height) as [e He].
      rewrite He in E. discriminate. }
  destruct height as [h | y | | | |]; try discriminate E.
  2:{ destruct (GradientImage_grids_float_height (PyInt w) y) as [e He].
      rewrite He in E. discriminate. }
  exists w, h. repeat split; try reflexivity.
  - destruct (Z.leb_spec w 0) as [Hw|Hw]; [|assumption].
    unfold GradientImage.create_coordinate_grids,
      GradientImage.validate_width_and_height in E.
    cbn [GradientImage.is_numeric negb GradientImage.le_zero] in E.
    replace (w <=? 0)%Z with true in E by (symmetry; now apply Z.leb_le).
    discriminate E.
  - destruct (Z.leb_spec h 0) as [Hh|Hh]; [|assumption].
    unfold GradientImage.create_coordinate_grids,
      GradientImage.validate_width_and_height in E.
    cbn [GradientImage.is_numeric negb GradientImage.le_zero] in E.
    replace (h <=? 0)%Z with true in E by (symmetry; now apply Z.leb_le).
    rewrite orb_true_r in E. discriminate E.
Qed.

(** X3. [create_coordinate_grids] of create_gradient_image.py returns a
    pair of grids exactly when both dimensions are positive Python ints;
    a float dimension, whatever its value, never yields a grid. *)
Theorem GradientImage_grids_returns_iff_positive_ints (width height : pyval) :
  (exists X Y, GradientImage.create_coordinate_grids width height
               = ([], Return (X, Y)))
  <-> (exists w h : Z, width = PyInt w /\ height = PyInt h /\ (0 < w)%Z /\ (0 < h)%Z).
Proof.
  split.
  - intros (X & Y & E). eapply GradientImage_grids_return_inv. exact E.
  - intros (w & h & -> & -> & Hw & Hh).
    rewrite GradientImage_grids by assumption.
    destruct (grids (Z.to_nat w) (Z.to_nat h)) as [X Y]. now exists X, Y.
Qed.

(** ** How the entry points compose *)

(** X4. In both modules, for every pair of arguments,
    [create_black_to_white_gradient] is the first component of
    [create_linear_gradients]: same result, same exception, same output. *)
Theorem black_to_white_is_linear_X (width height : pyval) :
  GradientImage.create_black_to_white_gradient width height
  = (p <- GradientImage.create_linear_gradients width height ;; ret (fst p)) /\
  GradientOnImage.create_black_to_white_gradient width height
  = (p <- GradientOnImage.create_linear_gradients width height ;; ret (fst p)).
Proof.
  split.
  - unfold GradientImage.create_black_to_white_gradient,
      GradientImage.create_linear_gradients.
    destruct (GradientImage.validate_width_and_height width height) as [o [[]|e]];
      [|reflexivity].
    cbn [bind].
    destruct (GradientImage.create_coordinate_grids width height) as [o' [[X Y]|e]];
      cbn; now rewrite ?app_nil_r.
  - unfold GradientOnImage.create_black_to_white_gradient,
      GradientOnImage.create_linear_gradients, GradientOnImage.check_width_height.
    destruct (negb (GradientOnImage.is_int width)); [reflexivity|].
    destruct (negb (GradientOnImage.is_int height)); [reflexivity|].
    unfold GradientOnImage.exit_on_exception.
    destruct (GradientOnImage.create_coordinate_grids width height)
      as [o' [[X Y]|e]]; cbn.
    + now rewrite ?app_nil_r.
    + destruct (is_Exception e); cbn; now rewrite ?app_nil_r.
Qed.

Lemma GradientOnImage_linear_int_cases (width height : pyval) :
  GradientOnImage.is_int width = true -> GradientOnImage.is_int height = true ->
  (exists a, GradientOnImage.create_linear_gradients width height = ([], Return a)) \/
  exits_with_diagnostic (GradientOnImage.create_linear_gradients width height).
Proof.
  intros Ew Eh.
  unfold GradientOnImage.create_linear_gradients, GradientOnImage.check_width_height.
  rewrite Ew, Eh. cbn [negb]. apply exit_on_exception_outcome. qx_auto.
Qed.

(** X5. For every pair of arguments, [create_directional_gradients] with
    both directions FORWARD behaves exactly as [create_linear_gradients]:
    same fields, same [TypeError], same diagnostic and exit. *)
Theorem directional_forward_is_linear (width height : pyval) :
  GradientOnImage.create_directional_gradients
    (PyDirection FORWARD) (PyDirection FORWARD) width height
  = GradientOnImage.create_linear_gradients width height.
Proof.
  destruct (GradientOnImage.is_int width) eqn:Ew.
  - destruct (GradientOnImage.is_int height) eqn:Eh.
    + unfold GradientOnImage.create_directional_gradients,
        GradientOnImage.check_width_height.
      rewrite Ew, Eh. cbn [negb].
      destruct (GradientOnImage_linear_int_cases width height Ew Eh)
        as [[[X Y] E] | [msg E]]; rewrite E; reflexivity.
    + unfold GradientOnImage.create_directional_gradients,
        GradientOnImage.create_linear_gradients, GradientOnImage.check_width_height.
      rewrite Ew, Eh. reflexivity.
  - unfold GradientOnImage.create_directional_gradients,
      GradientOnImage.create_linear_gradients, GradientOnImage.check_width_height.
    rewrite Ew. reflexivity.
Qed.

(** ** Linear gradients *)

Lemma unit_coord_bounds (i n : nat) : i < n -> (0 <= unit_coord i n <= 1)%R.
Proof.
  intros Hi. unfold unit_coord. destruct (Nat.eqb_spec n 1) as [->|Hn]; [lra|].
  assert (Hd : (0 < INR (n - 1))%R) by (apply lt_0_INR; lia).
  assert (Hi' : (INR i <= INR (n - 1))%R) by (apply le_INR; lia).
  pose proof (pos_INR i) as Hp.
  assert (Hinv : (0 < / INR (n - 1))%R) by now apply Rinv_0_lt_compat.
  assert (H1 : (INR (n - 1) * / INR (n - 1) = 1)%R) by (field; lra).
  unfold Rdiv. nra.
Qed.

Lemma unit_coord_mono (i j n : nat) :
  i <= j -> (unit_coord i n <= unit_coord j n)%R.
Proof.
  intros Hij. unfold unit_coord. destruct (Nat.eqb_spec n 1) as [->|Hn]; [lra|].
  destruct (Nat.eq_dec n 0) as [->|Hn0].
  - cbn [Nat.sub INR]. unfold Rdiv. rewrite Rinv_0. lra.
  - assert (Hd : (0 < INR (n - 1))%R) by (apply lt_0_INR; lia).
    assert (Hi' : (INR i <= INR j)%R) by now apply le_INR.
    assert (Hinv : (0 < / INR (n - 1))%R) by now apply Rinv_0_lt_compat.
    unfold Rdiv. nra.
Qed.

Lemma grids_in_unit (w h : nat) :
  Forall F64.in_unit (data (fst (grids w h))) /\
  Forall F64.in_unit (data (snd (grids w h))).
Proof.
  assert (L : forall n v, In v (Np.linspace_vals 0 1 n) -> F64.in_unit v).
  { intros n v Hv. apply In_nth_error in Hv. destruct Hv as [i Hi].
    assert (Hlt : i < n).
    { rewrite <- (linspace_vals_length 0 1 n). apply nth_error_Some. congruence. }
    rewrite linspace_vals_nth in Hi by assumption. injection Hi as <-.
    eexists. split; [reflexivity | now apply unit_coord_bounds]. }
  unfold grids, Np.meshgrid. cbn [fst snd data].
  split; apply Forall_forall; intros v Hv.
  - apply in_concat in Hv. destruct Hv as (l & Hl & Hv).
    apply repeat_spec in Hl. subst l. eapply L; eassumption.
  - apply in_flat_map in Hv. destruct Hv as (u & Hu & Hv).
    apply repeat_spec in Hv. subst v. eapply L; eassumption.
Qed.

Lemma GradientImage_linear (w h : Z) :
  (0 < w)%Z -> (0 < h)%Z ->
  GradientImage.create_linear_gradients (PyInt w) (PyInt h)
  = ret (grids (Z.to_nat w) (Z.to_nat h)).
Proof.
  intros Hw Hh. unfold GradientImage.create_linear_gradients.
  rewrite validate_width_and_height_pos, bind_ret_l, GradientImage_grids,
    bind_ret_l by assumption.
  now destruct (grids (Z.to_nat w) (Z.to_nat h)).
Qed.

Lemma GradientOnImage_linear (w h : Z) :
  (0 <= w)%Z -> (0 <= h)%Z ->
  GradientOnImage.create_linear_gradients (PyInt w) (PyInt h)
  = ret (grids (Z.to_nat w) (Z.to_nat h)).
Proof.
  intros Hw Hh.
  unfold GradientOnImage.create_linear_gradients, GradientOnImage.check_width_height.
  cbn [GradientOnImage.is_int negb].
  rewrite GradientOnImage_grids, bind_ret_l by assumption.
  now destruct (grids (Z.to_nat w) (Z.to_nat h)).
Qed.

(** X6. For positive integer dimensions the two fields of
    [create_linear_gradients] (the same in both modules) hold only values
    of the unit interval; X never decreases along a row and Y never
    decreases down a column; with more than one column X starts each row
    at 0 and ends it at 1, and likewise Y with more than one row. *)
Theorem linear_gradients_range_and_monotone (width height : Z) :
  (0 < width)%Z -> (0 < height)%Z ->
  exists X Y : ndarray,
    GradientImage.create_linear_gradients (PyInt width) (PyInt height)
    = ([], Return (X, Y)) /\
    GradientOnImage.create_linear_gradients (PyInt width) (PyInt height)
    = ([], Return (X, Y)) /\
    Forall F64.in_unit (data X) /\ Forall F64.in_unit (data Y) /\
    (forall r c1 c2, r < Z.to_nat height -> c1 <= c2 -> c2 < Z.to_nat width ->
       exists x1 x2, get X r c1 = Some (Fin x1) /\ get X r c2 = Some (Fin x2) /\
                     (x1 <= x2)%R) /\
    (forall r1 r2 c, r1 <= r2 -> r2 < Z.to_nat height -> c < Z.to_nat width ->
       exists y1 y2, get Y r1 c = Some (Fin y1) /\ get Y r2 c = Some (Fin y2) /\
                     (y1 <= y2)%R) /\
    ((1 < width)%Z -> forall r, r < Z.to_nat height ->
       get X r 0 = Some (Fin 0) /\ get X r (Z.to_nat width - 1) = Some (Fin 1)) /\
    ((1 < height)%Z -> forall c, c < Z.to_nat width ->
       get Y 0 c = Some (Fin 0) /\ get Y (Z.to_nat height - 1) c = Some (Fin 1)).
Proof.
  intros Hw Hh.
  exists (fst (grids (Z.to_nat width) (Z.to_nat height))),
         (snd (grids (Z.to_nat width) (Z.to_nat height))).
  rewrite <- surjective_pairing.
  split; [now apply GradientImage_linear|].
  split; [apply GradientOnImage_linear; lia|].
  split; [apply grids_in_unit|]. split; [apply grids_in_unit|].
  split; [|split; [|split]].
  - intros r c1 c2 Hr Hc Hc2.
    destruct (grids_get (Z.to_nat width) (Z.to_nat height) r c1) as [G1 _]; try lia.
    destruct (grids_get (Z.to_nat width) (Z.to_nat height) r c2) as [G2 _]; try lia.
    do 2 eexists. split; [exact G1|]. split; [exact G2|]. now apply unit_coord_mono.
  - intros r1 r2 c Hr Hr2 Hc.
    destruct (grids_get (Z.to_nat width) (Z.to_nat height) r1 c) as [_ G1]; try lia.
    destruct (grids_get (Z.to_nat width) (Z.to_nat height) r2 c) as [_ G2]; try lia.
    do 2 eexists. split; [exact G1|]. split; [exact G2|]. now apply unit_coord_mono.
  - intros H1 r Hr.
    destruct (grids_get (Z.to_nat width) (Z.to_nat height) r 0) as [G1 _]; try lia.
    destruct (grids_get (Z.to_nat width) (Z.to_nat height) r (Z.to_nat width - 1))
      as [G2 _]; try lia.
    rewrite unit_coord_first in G1. rewrite unit_coord_last in G2 by lia. auto.
  - intros H1 c Hc.
    destruct (grids_get (Z.to_nat width) (Z.to_nat height) 0 c) as [_ G1]; try lia.
    destruct (grids_get (Z.to_nat width) (Z.to_nat height) (Z.to_nat height - 1) c)
      as [_ G2]; try lia.
    rewrite unit_coord_first in G1. rewrite unit_coord_last in G2 by lia. auto.
Qed.

Lemma linear_gradients_range_and_monotone_witness :
  (0 < 4)%Z /\ (0 < 1)%Z /\
  exists X Y : ndarray,
    GradientImage.create_linear_gradients (PyInt 4) (PyInt 1) = ([], Return (X, Y)) /\
    GradientOnImage.create_linear_gradients (PyInt 4) (PyInt 1) = ([], Return (X, Y)) /\
    Forall F64.in_unit (data X) /\ Forall F64.in_unit (data Y) /\
    get X 0 0 = Some (Fin 0) /\ get X 0 (Z.to_nat 4 - 1) = Some (Fin 1).
Proof.
  split; [lia|]. split; [lia|].
  destruct (linear_gradients_range_and_monotone 4 1 ltac:(lia) ltac:(lia))
    as (X & Y & E1 & E2 & UX & UY & _ & _ & HX & _).
  exists X, Y. repeat (split; [assumption|]).
  apply HX; [lia | apply Nat.lt_0_succ].
Defined.

(** ** Direction applied to fields *)

Lemma get_amap (f : float64 -> float64) (a : ndarray) (r c : nat) :
  get (amap f a) r c = option_map f (get a r c).
Proof.
  unfold get, amap. cbn [nrows ncols data].
  destruct (_ && _); [apply nth_error_map | reflexivity].
Qed.

Lemma in_unit_rsub_one (v : float64) :
  F64.in_unit v -> F64.in_unit (F64.sub (Fin 1) v).
Proof.
  intros (y & -> & Hy). unfold F64.sub. cbn [F64.neg F64.add].
  eexists. split; [reflexivity | lra].
Qed.

(** X7. In both modules REVERSE returns a field of the same shape with the
    same number of elements, and a field that lies within the unit
    interval is reversed into one that lies within it. *)
Theorem reverse_keeps_shape_and_unit_range (f : ndarray) :
  exists g : ndarray,
    GradientImage.apply_direction_to_gradient (PyArray f) (PyDirection REVERSE)
    = ([], Return g) /\
    GradientOnImage.apply_direction_to_gradient (PyArray f) (PyDirection REVERSE)
    = ([], Return g) /\
    shape g = shape f /\
    List.length (data g) = List.length (data f) /\
    (Forall F64.in_unit (data f) -> Forall F64.in_unit (data g)).
Proof.
  exists (Np.rsub_one f).
  split; [reflexivity|]. split; [reflexivity|]. split; [reflexivity|].
  unfold Np.rsub_one, amap. cbn [data].
  split; [apply length_map|].
  rewrite Forall_map. apply Forall_impl. intros v. apply in_unit_rsub_one.
Qed.




Lemma GradientImage_black_to_white (w h : Z) :
  (0 < w)%Z -> (0 < h)%Z ->
  GradientImage.create_black_to_white_gradient (PyInt w) (PyInt h)
  = ret (fst (grids (Z.to_nat w) (Z.to_nat h))).
Proof.
  intros Hw Hh. unfold GradientImage.create_black_to_white_gradient.
  rewrite validate_width_and_height_pos, bind_ret_l, GradientImage_grids,
    bind_ret_l by assumption.
  now destruct (grids (Z.to_nat w) (Z.to_nat h)).
Qed.

Lemma GradientOnImage_black_to_white (w h : Z) :
  (0 <= w)%Z -> (0 <= h)%Z ->
  GradientOnImage.create_black_to_white_gradient (PyInt w) (PyInt h)
  = ret (fst (grids (Z.to_nat w) (Z.to_nat h))).
Proof.
  intros Hw Hh.
  unfold GradientOnImage.create_black_to_white_gradient,
    GradientOnImage.check_width_height.
  cbn [GradientOnImage.is_int negb].
  rewrite GradientOnImage_grids, bind_ret_l by assumption.
  now destruct (grids (Z.to_nat w) (Z.to_nat h)).
Qed.

(** X9. The white-to-black gradient both [main] functions build,
    [apply_direction_to_gradient(create_black_to_white_gradient(w, h),
    REVERSE)], has with more than one column the shape (height, width)
    and values in the unit interval; every row starts at 1, ends at 0 and
    never increases from one column to the next. *)
Theorem white_to_black_runs_from_one_to_zero (width height : Z) :
  (1 < width)%Z -> (0 < height)%Z ->
  exists B W : ndarray,
    GradientImage.create_black_to_white_gradient (PyInt width) (PyInt height)
    = ([], Return B) /\
    GradientOnImage.create_black_to_white_gradient (PyInt width) (PyInt height)
    = ([], Return B) /\
    GradientImage.apply_direction_to_gradient (PyArray B) (PyDirection REVERSE)
    = ([], Return W) /\
    GradientOnImage.apply_direction_to_gradient (PyArray B) (PyDirection REVERSE)
    = ([], Return W) /\
    shape W = (Z.to_nat height, Z.to_nat width) /\
    Forall F64.in_unit (data W) /\
    (forall r c1 c2 : nat,
       r < Z.to_nat height -> c1 <= c2 -> c2 < Z.to_nat width ->
       exists x1 x2, get W r c1 = Some (Fin x1) /\ get W r c2 = Some (Fin x2) /\
                     (x2 <= x1)%R) /\
    (forall r : nat, r < Z.to_nat height ->
       get W r 0 = Some (Fin 1) /\ get W r (Z.to_nat width - 1) = Some (Fin 0)).
Proof.
  intros Hw Hh.
  set (w := Z.to_nat width). set (h := Z.to_nat height).
  exists (fst (grids w h)), (Np.rsub_one (fst (grids w h))).
  split; [apply GradientImage_black_to_white; lia|].
  split; [apply GradientOnImage_black_to_white; lia|].
  split; [reflexivity|]. split; [reflexivity|].
  split; [apply (grids_shape w h)|].
  assert (G : forall r c, r < h -> c < w ->
            get (Np.rsub_one (fst (grids w h))) r c
            = Some (Fin (1 + - unit_coord c w))).
  { intros r c Hr Hc. destruct (grids_get w h r c Hr Hc) as [GX _].
    unfold Np.rsub_one. rewrite get_amap, GX. reflexivity. }
  split; [|split].
  - destruct (grids_in_unit w h) as [UX _].
    unfold Np.rsub_one, amap. cbn [data]. rewrite Forall_map.
    revert UX. apply Forall_impl. intros v. apply in_unit_rsub_one.
  - intros r c1 c2 Hr Hc Hc2.
    do 2 eexists. split; [apply G; lia|]. split; [apply G; lia|].
    pose proof (unit_coord_mono c1 c2 w Hc). lra.
  - intros r Hr. split.
    + rewrite G by (unfold w; lia). rewrite unit_coord_first. do 2 f_equal. lra.
    + rewrite G by (unfold w; lia).
      rewrite unit_coord_last by (unfold w; lia). do 2 f_equal. lra.
Qed.

Lemma white_to_black_runs_from_one_to_zero_witness :
  (1 < 4)%Z /\ (0 < 2)%Z /\
  exists B W : ndarray,
    GradientImage.create_black_to_white_gradient (PyInt 4) (PyInt 2)
    = ([], Return B) /\
    GradientImage.apply_direction_to_gradient (PyArray B) (PyDirection REVERSE)
    = ([], Return W) /\
    Forall F64.in_unit (data W) /\
    get W 0 0 = Some (Fin 1) /\ get W 0 (Z.to_nat 4 - 1) = Some (Fin 0).
Proof.
  split; [lia|]. split; [lia|].
  destruct (white_to_black_runs_from_one_to_zero 4 2 ltac:(lia) ltac:(lia))
    as (B & W & E1 & _ & E3 & _ & _ & U & _ & E).
  exists B, W. split; [exact E1|]. split; [exact E3|]. split; [exact U|].
  apply E. apply Nat.lt_0_succ.
Defined.

(** ** Degenerate dimensions in create_gradient_on_image.py *)

Lemma GradientOnImage_grids_negative (w h : Z) :
  (w < 0)%Z \/ (h < 0)%Z ->
  GradientOnImage.create_coordinate_grids (PyInt w) (PyInt h)
  = negative_samples_exit (if (w <? 0)%Z then w else h).
Proof.
  intros H.
  unfold GradientOnImage.create_coordinate_grids, GradientOnImage.check_width_height,
    GradientOnImage.exit_on_exception, Np.linspace.
  cbn [GradientOnImage.is_int negb].
  destruct (Z.ltb_spec w 0) as [Hw|Hw]; [reflexivity|].
  destruct (Z.ltb_spec h 0) as [Hh|Hh]; [reflexivity | lia].
Qed.

(** X10. With a negative integer width or height every grid and field
    entry point of create_gradient_on_image.py prints NumPy's message
    about the first negative sample count, once even where the call is
    nested in a second [try], and ends the process with status 1. *)
Theorem GradientOnImage_negative_dimension_exits
    (width height : Z) (cx cy : float64) (dx dy : Direction) :
  (width < 0)%Z \/ (height < 0)%Z ->
  let n := if (width <? 0)%Z then width else height in
  GradientOnImage.create_coordinate_grids (PyInt width) (PyInt height)
  = negative_samples_exit n /\
  GradientOnImage.create_black_to_white_gradient (PyInt width) (PyInt height)
  = negative_samples_exit n /\
  GradientOnImage.create_linear_gradients (PyInt width) (PyInt height)
  = negative_samples_exit n /\
  GradientOnImage.create_radial_gradient (PyInt width) (PyInt height)
    (PyFloat cx) (PyFloat cy) = negative_samples_exit n /\
  GradientOnImage.create_directional_gradients (PyDirection dx) (PyDirection dy)
    (PyInt width) (PyInt height) = negative_samples_exit n.
Proof.
  intros H n.
  pose proof (GradientOnImage_grids_negative width height H) as G. fold n in G.
  assert (L : GradientOnImage.create_linear_gradients (PyInt width) (PyInt height)
              = negative_samples_exit n).
  { unfold GradientOnImage.create_linear_gradients, GradientOnImage.check_width_height.
    cbn [GradientOnImage.is_int negb]. rewrite G. reflexivity. }
  split; [exact G|]. split; [|split; [exact L|split]].
  - unfold GradientOnImage.create_black_to_white_gradient,
      GradientOnImage.check_width_height.
    cbn [GradientOnImage.is_int negb]. rewrite G. reflexivity.
  - unfold GradientOnImage.create_radial_gradient, GradientOnImage.check_width_height.
    cbn [GradientOnImage.is_int GradientOnImage.is_float negb]. rewrite G. reflexivity.
  - unfold GradientOnImage.create_directional_gradients,
      GradientOnImage.check_width_height.
    cbn [GradientOnImage.is_int negb]. rewrite L. reflexivity.
Qed.

Lemma GradientOnImage_negative_dimension_exits_witness :
  ((-3 < 0)%Z \/ (5 < 0)%Z) /\
  GradientOnImage.create_radial_gradient (PyInt (-3)) (PyInt 5)
    (PyFloat (Fin 0)) (PyFloat (Fin 0))
  = (["Exception: Number of samples, -3, must be non-negative."],
     Raise (SystemExit 1)) /\
  GradientOnImage.create_directional_gradients
    (PyDirection FORWARD) (PyDirection REVERSE) (PyInt (-3)) (PyInt 5)
  = (["Exception: Number of samples, -3, must be non-negative."],
     Raise (SystemExit 1)).
Proof.
  split; [left; lia|].
  destruct (GradientOnImage_negative_dimension_exits (-3) 5 (Fin 0) (Fin 0)
              FORWARD REVERSE ltac:(left; lia))
    as (_ & _ & _ & R & D).
  split; [exact R | exact D].
Defined.

Lemma grids_empty (w h : nat) :
  w * h = 0 -> data (fst (grids w h)) = [] /\ data (snd (grids w h)) = [].
Proof.
  intros H. destruct (grids_wf w h) as [WX WY]. unfold wf in WX, WY.
  unfold grids, Np.meshgrid in *. cbn [fst snd nrows ncols data] in *.
  split; apply length_zero_iff_nil; [rewrite WX | rewrite WY];
    rewrite !linspace_vals_length; lia.
Qed.

(** X11. With non-negative integer dimensions of which one is 0,
    create_gradient_on_image.py treats the empty grid in two ways:
    [create_linear_gradients] returns two fields of shape (height, width)
    without elements, while [create_radial_gradient] prints NumPy's
    zero-size message for [np.max] and ends the process with status 1. *)
Theorem GradientOnImage_empty_grid (width height : Z) (cx cy : float64) :
  (0 <= width)%Z -> (0 <= height)%Z -> (width * height = 0)%Z ->
  GradientOnImage.create_linear_gradients (PyInt width) (PyInt height)
  = ([], Return (mkArr (Z.to_nat height) (Z.to_nat width) [],
                 mkArr (Z.to_nat height) (Z.to_nat width) [])) /\
  GradientOnImage.create_radial_gradient (PyInt width) (PyInt height)
    (PyFloat cx) (PyFloat cy)
  = (["Exception: zero-size array to reduction operation maximum which has no identity"],
     Raise (SystemExit 1)).
Proof.
  intros Hw Hh H0.
  assert (E : Z.to_nat width * Z.to_nat height = 0).
  { apply Z.eq_mul_0 in H0. destruct H0 as [-> | ->];
      change (Z.to_nat 0) with 0; lia. }
  destruct (grids_empty _ _ E) as [EX EY].
  destruct (grids_shape (Z.to_nat width) (Z.to_nat height)) as [SX SY].
  split.
  - rewrite GradientOnImage_linear by assumption.
    destruct (grids (Z.to_nat width) (Z.to_nat height)) as [[hx wx dx] [hy wy dy]].
    cbn [fst snd data] in *. unfold shape in SX, SY. cbn [nrows ncols] in SX, SY.
    injection SX as -> ->. injection SY as -> ->. subst dx dy. reflexivity.
  - unfold GradientOnImage.create_radial_gradient, GradientOnImage.check_width_height.
    cbn [GradientOnImage.is_int GradientOnImage.is_float negb].
    rewrite GradientOnImage_grids by assumption.
    destruct (grids (Z.to_nat width) (Z.to_nat height)) as [[hx wx dx] [hy wy dy]].
    cbn [fst snd data] in *. subst dx dy. reflexivity.
Qed.

Lemma GradientOnImage_empty_grid_witness :
  (0 <= 0)%Z /\ (0 <= 10)%Z /\ (0 * 10 = 0)%Z /\
  GradientOnImage.create_linear_gradients (PyInt 0) (PyInt 10)
  = ([], Return (mkArr (Z.to_nat 10) (Z.to_nat 0) [],
                 mkArr (Z.to_nat 10) (Z.to_nat 0) [])) /\
  GradientOnImage.create_radial_gradient (PyInt 0) (PyInt 10)
    (PyFloat (Fin (1 / 2))) (PyFloat (Fin (1 / 2)))
  = (["Exception: zero-size array to reduction operation maximum which has no identity"],
     Raise (SystemExit 1)).
Proof.
  split; [lia|]. split; [lia|]. split; [lia|].
  apply (GradientOnImage_empty_grid 0 10); lia.
Defined.

(** ** The single grid point *)



(** ** Composing generated fields into an image *)

Lemma rgb_combination_same_shape (a b c : ndarray) :
  shapes_agree a b c = true ->
  GradientImage.create_rgb_combination (PyArray a) (PyArray b) (PyArray c)
  = ret (Np.clip (stacked a b c) (Fin 0) (Fin 1)) /\
  GradientOnImage.create_rgb_combination (PyArray a) (PyArray b) (PyArray c)
  = ret (stacked a b c).
Proof.
  intros H.
  unfold GradientImage.create_rgb_combination,
    GradientOnImage.create_rgb_combination, GradientOnImage.exit_on_exception,
    Np.stack_last, stacked.
  fold (shapes_agree a b c). rewrite H. split; reflexivity.
Qed.

Lemma clip_unit_noop (l : list float64) :
  Forall F64.in_unit l -> map (F64.clip (Fin 0) (Fin 1)) l = l.
Proof.
  induction 1 as [|v l (x & -> & Hx) _ IH]; [reflexivity|].
  cbn [map]. rewrite IH. f_equal. now apply clip_below_above.
Qed.

Lemma interleave3_Forall (P : float64 -> Prop) (l0 l1 l2 : list float64) :
  Forall P l0 -> Forall P l1 -> Forall P l2 -> Forall P (Np.interleave3 l0 l1 l2).
Proof.
  intros H0. revert l1 l2.
  induction H0 as [|a l0 Ha _ IH]; intros l1 l2 H1 H2; [constructor|].
  destruct H1 as [|b l1 Hb H1]; [constructor|].
  destruct H2 as [|c l2 Hc H2]; [constructor|].
  cbn [Np.interleave3]. repeat constructor; auto.
Qed.

Lemma arr_eta (a : ndarray) (h w : nat) :
  shape a = (h, w) -> mkArr h w (data a) = a.
Proof. destruct a. unfold shape. cbn. now intros [= -> ->]. Qed.

Lemma unit_field_dims (h w : nat) (f : ndarray) :
  unit_field h w f ->
  nrows f = h /\ ncols f = w /\ List.length (data f) = h * w.
Proof.
  intros (S & W & _). unfold shape in S. unfold wf in W.
  injection S as H1 H2. rewrite W, H1, H2. auto.
Qed.

Lemma rgb_unit_fields (h w : nat) (a b c : ndarray) :
  unit_field h w a -> unit_field h w b -> unit_field h w c ->
  GradientImage.create_rgb_combination (PyArray a) (PyArray b) (PyArray c)
  = ([], Return (stacked a b c)) /\
  GradientOnImage.create_rgb_combination (PyArray a) (PyArray b) (PyArray c)
  = ([], Return (stacked a b c)) /\
  shape3 (stacked a b c) = (h, w, 3) /\
  Np.channel (stacked a b c) 0 = a /\
  Np.channel (stacked a b c) 1 = b /\
  Np.channel (stacked a b c) 2 = c /\
  Forall F64.in_unit (data3 (stacked a b c)).
Proof.
  intros Fa Fb Fc.
  destruct (unit_field_dims _ _ _ Fa) as (Ha1 & Ha2 & La).
  destruct (unit_field_dims _ _ _ Fb) as (Hb1 & Hb2 & Lb).
  destruct (unit_field_dims _ _ _ Fc) as (Hc1 & Hc2 & Lc).
  destruct Fa as (Sa & _ & Ua). destruct Fb as (Sb & _ & Ub).
  destruct Fc as (Sc & _ & Uc).
  assert (SA : shapes_agree a b c = true).
  { apply shapes_agree_true. now rewrite Sa, Sb, Sc. }
  destruct (rgb_combination_same_shape a b c SA) as [E1 E2].
  assert (U : Forall F64.in_unit (data3 (stacked a b c)))
    by (now apply interleave3_Forall).
  assert (NC : Np.clip (stacked a b c) (Fin 0) (Fin 1) = stacked a b c).
  { unfold Np.clip, amap3. rewrite (clip_unit_noop _ U). reflexivity. }
  split; [now rewrite E1, NC|]. split; [exact E2|].
  unfold stacked, shape3. cbn [dim0 dim1 dim2]. rewrite Ha1, Ha2.
  split; [reflexivity|].
  destruct (channel_interleave3 h w (data a) (data b) (data c) La Lb Lc)
    as (C0 & C1 & C2).
  rewrite C0, C1, C2.
  split; [now apply arr_eta|]. split; [now apply arr_eta|].
  split; [now apply arr_eta|]. exact U.
Qed.

Lemma grids_dims (w h : nat) :
  (nrows (fst (grids w h)) = h /\ ncols (fst (grids w h)) = w) /\
  (nrows (snd (grids w h)) = h /\ ncols (snd (grids w h)) = w) /\
  List.length (data (fst (grids w h))) = h * w /\
  List.length (data (snd (grids w h))) = h * w.
Proof.
  destruct (grids_wf w h) as [WX WY]. unfold wf in WX, WY. rewrite WX, WY.
  unfold grids, Np.meshgrid. cbn [fst snd nrows ncols].
  rewrite !linspace_vals_length. auto.
Qed.



(** X13. For three well-formed fields of one shape whose elements all
    lie in the unit interval, [create_rgb_combination] of both modules
    returns the same image of shape (height, width, 3): the clamping of
    create_gradient_image.py changes nothing and each channel is the
    corresponding input. *)
Theorem rgb_combination_of_unit_fields (h w : nat) (a b c : ndarray) :
  unit_field h w a -> unit_field h w b -> unit_field h w c ->
  exists img : ndarray3,
    GradientImage.create_rgb_combination (PyArray a) (PyArray b) (PyArray c)
    = ([], Return img) /\
    GradientOnImage.create_rgb_combination (PyArray a) (PyArray b) (PyArray c)
    = ([], Return img) /\
    shape3 img = (h, w, 3) /\
    Np.channel img 0 = a /\ Np.channel img 1 = b /\ Np.channel img 2 = c /\
    Forall F64.in_unit (data3 img).
Proof.
  intros Fa Fb Fc. exists (stacked a b c). now apply rgb_unit_fields.
Qed.

Lemma rgb_combination_of_unit_fields_witness :
  let a := mkArr 1 2 [Fin 0; Fin 1] in
  let b := mkArr 1 2 [Fin (1 / 2); Fin (1 / 4)] in
  unit_field 1 2 a /\ unit_field 1 2 b /\
  exists img : ndarray3,
    GradientImage.create_rgb_combination (PyArray a) (PyArray b) (PyArray a)
    = ([], Return img) /\
    GradientOnImage.create_rgb_combination (PyArray a) (PyArray b) (PyArray a)
    = ([], Return img) /\
    shape3 img = (1, 2, 3) /\
    Np.channel img 0 = a /\ Np.channel img 1 = b /\ Np.channel img 2 = a /\
    Forall F64.in_unit (data3 img).
Proof.
  intros a b.
  assert (Fa : unit_field 1 2 a).
  { split; [reflexivity|]. split; [reflexivity|].
    repeat constructor; eexists; (split; [reflexivity | lra]). }
  assert (Fb : unit_field 1 2 b).
  { split; [reflexivity|]. split; [reflexivity|].
    repeat constructor; eexists; (split; [reflexivity | lra]). }
  split; [exact Fa|]. split; [exact Fb|].
  exact (rgb_combination_of_unit_fields 1 2 a b a Fa Fb Fa).
Defined.



Lemma GradientImage_rgb_combination_clamps_witness :
  let a := mkArr 1 2 [Fin 2; Fin (-1)] in
  let b := mkArr 1 2 [Fin (1 / 2); PInf] in
  let c := mkArr 1 2 [NInf; Fin 0] in
  wf a /\ wf b /\ wf c /\ shape b = shape a /\ shape c = shape a /\
  exists img,
    GradientImage.create_rgb_combination (PyArray a) (PyArray b) (PyArray c)
    = ([], Return img) /\
    shape3 img = (nrows a, ncols a, 3) /\
    Np.channel img 0 = amap (F64.clip (Fin 0) (Fin 1)) a /\
    Np.channel img 1 = amap (F64.clip (Fin 0) (Fin 1)) b /\
    Np.channel img 2 = amap (F64.clip (Fin 0) (Fin 1)) c /\
    Forall (fun v => v = NaN \/ F64.in_unit v) (data3 img).
Proof.
  intros a b c.
  split; [reflexivity|]. split; [reflexivity|]. split; [reflexivity|].
  split; [reflexivity|]. split; [reflexivity|].
  apply (GradientImage_rgb_combination_clamps a b c); reflexivity.
Defined.


(** ** The values of the radial field *)

Lemma grids_radial_get (w h : nat) (cx cy : R) (r c : nat) :
  r < h -> c < w ->
  get (radial_of (fst (grids w h)) (snd (grids w h)) (Fin cx) (Fin cy)) r c
  = Some (Fin (dist (unit_coord c w) (unit_coord r h) cx cy)).
Proof.
  intros Hr Hc. destruct (grids_get w h r c Hr Hc) as [GX GY].
  now apply radial_of_get.
Qed.

Lemma radial_field_values (w h : nat) (cx cy : R) :
  0 < w -> 0 < h -> 1 < w * h ->
  exists m : R,
    (0 < m)%R /\
    (forall r c, r < h -> c < w ->
       (dist (unit_coord c w) (unit_coord r h) cx cy <= m)%R /\
       get (unguarded_radial w h (Fin cx) (Fin cy)) r c
       = Some (Fin (dist (unit_coord c w) (unit_coord r h) cx cy / m))) /\
    (exists r0 c0, r0 < h /\ c0 < w /\
       dist (unit_coord c0 w) (unit_coord r0 h) cx cy = m).
Proof.
  intros Hw Hh Hwh. unfold unguarded_radial. cbv zeta.
  set (rr := radial_of (fst (grids w h)) (snd (grids w h)) (Fin cx) (Fin cy)).
  assert (Hnn : Forall nonneg_fin (data rr))
    by (apply radial_of_nonneg; apply grids_finite).
  assert (NE : data rr <> []) by now apply grids_radial_nonempty.
  destruct (amax_finite rr NE (nonneg_fin_finite _ Hnn)) as (m & Em & Im & Bm).
  destruct (grids_radial_positive w h cx cy Hw Hh Hwh) as (d & Hd & Hpos).
  fold rr in Hd. assert (Hm : (0 < m)%R) by (specialize (Bm d Hd); lra).
  exists m. split; [exact Hm|]. rewrite Em. split.
  - intros r c Hr Hc.
    pose proof (grids_radial_get w h cx cy r c Hr Hc) as G. fold rr in G.
    split; [apply Bm; eapply get_In; exact G|].
    unfold Np.div_scalar. rewrite get_amap, G. cbn [option_map].
    rewrite div_by_nonzero by lra. reflexivity.
  - apply In_nth_error in Im. destruct Im as [i Hi].
    assert (Li : i < h * w).
    { assert (L : List.length (data rr) = h * w).
      { unfold rr. rewrite radial_of_length.
        destruct (grids_dims w h) as (_ & _ & LX & LY). rewrite LX, LY. lia. }
      rewrite <- L. apply nth_error_Some. congruence. }
    assert (Hr0 : i / w < h) by (apply Nat.Div0.div_lt_upper_bound; lia).
    assert (Hc0 : i mod w < w) by (apply Nat.mod_upper_bound; lia).
    exists (i / w), (i mod w). split; [exact Hr0|]. split; [exact Hc0|].
    pose proof (grids_radial_get w h cx cy _ _ Hr0 Hc0) as G. fold rr in G.
    unfold get in G.
    assert (Dn : nrows rr = h /\ ncols rr = w) by apply (grids_dims w h).
    destruct Dn as [Dn1 Dn2]. rewrite Dn1, Dn2 in G.
    replace (i / w <? h) with true in G by (symmetry; now apply Nat.ltb_lt).
    replace (i mod w <? w) with true in G by (symmetry; now apply Nat.ltb_lt).
    cbn [andb] in G.
    replace (i / w * w + i mod w) with i in G
      by (rewrite (Nat.div_mod_eq i w) at 1; lia).
    rewrite Hi in G. now injection G as <-.
Qed.



(** X16. With the centre at its default (0.5, 0.5) and more than one grid
    point, the four corners of the radial field hold the maximum 1 in
    both modules. *)
Theorem radial_default_centre_corners (width height : Z) :
  (0 < width)%Z -> (0 < height)%Z -> (1 < width * height)%Z ->
  exists field : ndarray,
    GradientImage.create_radial_gradient (PyInt width) (PyInt height)
      (PyFloat (Fin (1 / 2))) (PyFloat (Fin (1 / 2))) = ([], Return field) /\
    GradientOnImage.create_radial_gradient (PyInt width) (PyInt height)
      (PyFloat (Fin (1 / 2))) (PyFloat (Fin (1 / 2))) = ([], Return field) /\
    forall r c : nat,
      r = 0 \/ r = Z.to_nat height - 1 -> c = 0 \/ c = Z.to_nat width - 1 ->
      get field r c = Some (Fin 1).
Proof.
  intros Hw Hh Hwh.
  set (w := Z.to_nat width). set (h := Z.to_nat height).
  assert (Pw : 0 < w) by (unfold w; lia). assert (Ph : 0 < h) by (unfold h; lia).
  assert (Pwh : 1 < w * h) by (unfold w, h; lia).
  destruct (radial_field_values w h (1 / 2) (1 / 2) Pw Ph Pwh)
    as (m & Hm & V & (r0 & c0 & Hr0 & Hc0 & A)).
  destruct (radial_normalised w h (1 / 2) (1 / 2) Pw Ph Pwh) as (Eg & _).
  exists (unguarded_radial w h (Fin (1 / 2)) (Fin (1 / 2))).
  split.
  { rewrite (GradientImage_radial_eval _ _ _ _ (Fin (1 / 2)) (Fin (1 / 2)))
      by (assumption || reflexivity).
    fold w h. rewrite Eg. reflexivity. }
  split; [now apply GradientOnImage_radial_eval|].
  intros r c Hr Hc.
  assert (Rr : r < h) by lia. assert (Rc : c < w) by lia.
  assert (End : forall i n, 0 < n -> i = 0 \/ i = n - 1 ->
                  unit_coord i n = 0%R \/ unit_coord i n = 1%R).
  { intros i n Hn [-> | ->]; [left; apply unit_coord_first|].
    destruct (Nat.eq_dec n 1) as [-> | Hn1]; [left; apply unit_coord_first|].
    right. apply unit_coord_last. lia. }
  destruct (V r c Rr Rc) as [Hle ->]. do 2 f_equal.
  assert (Corner : dist (unit_coord c w) (unit_coord r h) (1 / 2) (1 / 2)
                   = R_sqrt.sqrt (1 / 2)).
  { unfold dist. f_equal.
    destruct (End c w Pw Hc) as [-> | ->]; destruct (End r h Ph Hr) as [-> | ->];
      field. }
  assert (Far : (m <= R_sqrt.sqrt (1 / 2))%R).
  { rewrite <- A. unfold dist. apply sqrt_le_1_alt.
    pose proof (unit_coord_bounds c0 w Hc0) as Bx.
    pose proof (unit_coord_bounds r0 h Hr0) as By. nra. }
  rewrite Corner in *. replace m with (R_sqrt.sqrt (1 / 2)) by lra.
  field. lra.
Qed.

Lemma radial_default_centre_corners_witness :
  (0 < 3)%Z /\ (0 < 2)%Z /\ (1 < 3 * 2)%Z /\
  exists field : ndarray,
    GradientImage.create_radial_gradient (PyInt 3) (PyInt 2)
      (PyFloat (Fin (1 / 2))) (PyFloat (Fin (1 / 2))) = ([], Return field) /\
    GradientOnImage.create_radial_gradient (PyInt 3) (PyInt 2)
      (PyFloat (Fin (1 / 2))) (PyFloat (Fin (1 / 2))) = ([], Return field) /\
    forall r c : nat,
      r = 0 \/ r = Z.to_nat 2 - 1 -> c = 0 \/ c = Z.to_nat 3 - 1 ->
      get field r c = Some (Fin 1).
Proof.
  split; [lia|]. split; [lia|]. split; [lia|].
  apply (radial_default_centre_corners 3 2); lia.
Defined.

(** ** Exactly when a call returns *)

(** X17. [create_radial_gradient] of create_gradient_image.py returns a
    field exactly when both dimensions are positive Python ints and each
    centre coordinate is a float or an int that converts to a float; in
    every other case it raises and no field comes back. *)
Theorem GradientImage_radial_returns_iff (width height center_x center_y : pyval) :
  (exists field, GradientImage.create_radial_gradient width height center_x center_y
                 = ([], Return field))
  <-> ((exists w h : Z, width = PyInt w /\ height = PyInt h /\ (0 < w)%Z /\ (0 < h)%Z)
       /\ (exists fx, center_float center_x = Some fx)
       /\ (exists fy, center_float center_y = Some fy)).
Proof.
  split.
  - intros (field & E).
    assert (D : exists w h : Z,
               width = PyInt w /\ height = PyInt h /\ (0 < w)%Z /\ (0 < h)%Z).
    { unfold GradientImage.create_radial_gradient in E.
      destruct (GradientImage.validate_width_and_height width height)
        as [o1 [[]|e1]]; [|discriminate E].
      cbn [bind] in E.
      destruct (GradientImage.validate_center_coordinates center_x center_y)
        as [o2 [[]|e2]]; [|discriminate E].
      cbn [bind] in E.
      destruct (GradientImage.create_coordinate_grids width height)
        as [o3 [p|e3]] eqn:G.
      + eapply GradientImage_grids_return_inv. exact G.
      + exfalso. revert E. cbn [bind try_except].
        destruct (is_Exception e3); cbn; discriminate. }
    split; [exact D|].
    destruct D as (w & h & -> & -> & Hw & Hh).
    assert (C : GradientImage.is_numeric center_x = true /\
                GradientImage.is_numeric center_y = true).
    { revert E. unfold GradientImage.create_radial_gradient,
        GradientImage.validate_center_coordinates.
      rewrite validate_width_and_height_pos, bind_ret_l by assumption.
      destruct (GradientImage.is_numeric center_x); [|discriminate].
      destruct (GradientImage.is_numeric center_y); [auto | discriminate]. }
    destruct C as [Nx Ny].
    destruct (center_float center_x) as [fx|] eqn:Cx.
    + destruct (center_float center_y) as [fy|] eqn:Cy.
      * split; eexists; reflexivity.
      * rewrite (GradientImage_radial_overflow w h center_x center_y Hw Hh Nx Ny
                   (or_intror Cy)) in E. discriminate E.
    + rewrite (GradientImage_radial_overflow w h center_x center_y Hw Hh Nx Ny
                 (or_introl Cx)) in E. discriminate E.
  - intros ((w & h & -> & -> & Hw & Hh) & (fx & Cx) & (fy & Cy)).
    eexists. now apply (GradientImage_radial_eval _ _ _ _ fx fy).
Qed.

(** X18. [create_coordinate_grids] of create_gradient_on_image.py returns
    a pair of grids exactly when both dimensions are Python ints that are
    not negative; zero is accepted. *)
Theorem GradientOnImage_grids_returns_iff (width height : pyval) :
  (exists X Y, GradientOnImage.create_coordinate_grids width height
               = ([], Return (X, Y)))
  <-> (exists w h : Z, width = PyInt w /\ height = PyInt h /\ (0 <= w)%Z /\ (0 <= h)%Z).
Proof.
  split.
  - intros (X & Y & E).
    destruct width as [w | | | | |]; try discriminate E.
    destruct height as [h | | | | |]; try discriminate E.
    exists w, h. split; [reflexivity|]. split; [reflexivity|].
    destruct (Z.ltb_spec w 0) as [Hw|Hw].
    { rewrite GradientOnImage_grids_negative in E by auto. discriminate E. }
    destruct (Z.ltb_spec h 0) as [Hh|Hh].
    { rewrite GradientOnImage_grids_negative in E by auto. discriminate E. }
    auto.
  - intros (w & h & -> & -> & Hw & Hh).
    rewrite GradientOnImage_grids by assumption.
    destruct (grids (Z.to_nat w) (Z.to_nat h)) as [X Y]. now exists X, Y.
Qed.

Lemma GradientOnImage_radial_no_grid (w h : Z) (cx cy : float64) :
  ~ ((0 < w)%Z /\ (0 < h)%Z) ->
  exits_with_diagnostic
    (GradientOnImage.create_radial_gradient (PyInt w) (PyInt h)
       (PyFloat cx) (PyFloat cy)).
Proof.
  intros H.
  unfold GradientOnImage.create_radial_gradient, GradientOnImage.check_width_height.
  cbn [GradientOnImage.is_int GradientOnImage.is_float negb].
  destruct (Z.ltb_spec w 0) as [Hw|Hw].
  { rewrite GradientOnImage_grids_negative by auto. eexists. reflexivity. }
  destruct (Z.ltb_spec h 0) as [Hh|Hh].
  { rewrite GradientOnImage_grids_negative by auto. eexists. reflexivity. }
  rewrite GradientOnImage_grids by assumption.
  assert (E : Z.to_nat w * Z.to_nat h = 0) by nia.
  destruct (grids_empty _ _ E) as [EX EY].
  destruct (grids (Z.to_nat w) (Z.to_nat h)) as [[hx wx dx] [hy wy dy]].
  cbn [fst snd data] in *. subst dx dy. eexists. reflexivity.
Qed.

(** X19. [create_radial_gradient] of create_gradient_on_image.py returns a
    field exactly when both dimensions are positive Python ints and both
    centre coordinates are floats: an int centre, a zero or a negative
    dimension all end without a field. *)
Theorem GradientOnImage_radial_returns_iff (width height center_x center_y : pyval) :
  (exists field, GradientOnImage.create_radial_gradient width height center_x center_y
                 = ([], Return field))
  <-> ((exists w h : Z, width = PyInt w /\ height = PyInt h /\ (0 < w)%Z /\ (0 < h)%Z)
       /\ GradientOnImage.is_float center_x = true
       /\ GradientOnImage.is_float center_y = true).
Proof.
  split.
  - intros (field & E).
    destruct width as [w | | | | |]; try discriminate E.
    destruct height as [h | | | | |]; try discriminate E.
    destruct center_x as [| cx | | | |]; try discriminate E.
    destruct center_y as [| cy | | | |]; try discriminate E.
    split; [|split; reflexivity].
    exists w, h. split; [reflexivity|]. split; [reflexivity|].
    destruct (Z.ltb_spec 0 w) as [Hw|Hw]; [destruct (Z.ltb_spec 0 h) as [Hh|Hh]|];
      [auto | |];
      destruct (GradientOnImage_radial_no_grid w h cx cy ltac:(lia)) as [msg M];
      rewrite M in E; discriminate E.
  - intros ((w & h & -> & -> & Hw & Hh) & Fx & Fy).
    destruct center_x as [| cx | | | |]; try discriminate Fx.
    destruct center_y as [| cy | | | |]; try discriminate Fy.
    eexists. now apply GradientOnImage_radial_eval.
Qed.
